(** * Credit ledger and payment reconciliation: a shallow embedding

    The backend's asynchronous service functions are embedded as small
    programs over the operations they await (Supabase queries, Razorpay
    calls).  Each awaited operation is one atomic step on the world, so
    concurrent requests are interleavings of such steps. *)

From Stdlib Require Import String List ZArith QArith Qround Bool Lia Lqa DecimalString.
From Stdlib Require Import PrimFloat FloatOps SpecFloat.
Import ListNotations.
Local Open Scope string_scope.
Local Open Scope list_scope.
Local Close Scope Q_scope.

Set Implicit Arguments.
Set Warnings "-register-all,-inexact-float".

(** ** JavaScript values as the code uses them *)

(** A request field, header or environment variable: a string or [undefined]. *)
Definition JsString := option string.

(** JavaScript truthiness of a string-or-undefined: [undefined] and the empty
    string are falsy. *)
Definition truthy (v : JsString) : bool :=
  match v with
  | Some s => negb (s =? "")
  | None => false
  end.

(** A template literal [`${v}`] prints [undefined] for a missing value. *)
Definition template (v : JsString) : string :=
  match v with
  | Some s => s
  | None => "undefined"
  end.

(** A JavaScript number holding an integer, or [NaN]. *)
Inductive JsNum :=
| Num (z : Z)
| NaN.

Definition js_add (a b : JsNum) : JsNum :=
  match a, b with
  | Num x, Num y => Num (x + y)
  | _, _ => NaN
  end.

(** [Math.round] on an exact value: the nearest integer, ties towards plus
    infinity. *)
Definition Math_round (x : Q) : Z := Qfloor (x + (1 # 2)).

(** A JavaScript number with a fraction is an IEEE 754 double.  The exact
    value of a finite double; none for [NaN] and the infinities. *)
Definition double_value (x : float) : option Q :=
  match Prim2SF x with
  | S754_zero _ => Some 0%Q
  | S754_finite s m e =>
      Some ((if s then -1 else 1) * inject_Z (Zpos m) * Qpower 2 e)%Q
  | _ => None
  end.

(** [Math.round] of a double: the integer nearest to its exact value; a
    non-finite double stays what it is, which is no integer (either one is
    sent as [null]). *)
Definition Math_round_double (x : float) : JsNum :=
  match double_value x with
  | Some q => Num (Math_round q)
  | None => NaN
  end.

(** [Math.round] of a number that holds an integer. *)
Definition Math_round_num (a : JsNum) : JsNum :=
  match a with
  | Num z => Num (Math_round (inject_Z z))
  | NaN => NaN
  end.

(** Parsed JSON, as far as the webhook handler looks into it. *)
Inductive JsValue :=
| JUndefined
| JNull
| JBool (b : bool)
| JNumber (z : Z)
| JStr (s : string)
| JObj (fields : list (string * JsValue)).

Fixpoint assoc_field (name : string) (fields : list (string * JsValue)) : JsValue :=
  match fields with
  | [] => JUndefined
  | (k, v) :: rest => if k =? name then v else assoc_field name rest
  end.

(** Property access [v.name]: a [TypeError] on [undefined] and [null],
    [undefined] for a missing property. *)
Definition prop (v : JsValue) (name : string) : string + JsValue :=
  match v with
  | JUndefined | JNull => inl "TypeError"
  | JObj fields => inr (assoc_field name fields)
  | _ => inr JUndefined
  end.

(** ** Data model: rows of the store's tables *)

Record User := mkUser {
  user_id : nat;
  phone_number : string;
  credits : Z
}.

Inductive Action := credit | debit.

Record CreditTransaction := mkTx {
  tx_user_id : nat;
  tx_action : Action;
  tx_credits : JsNum;
  tx_source : string;
  tx_reference_id : JsString
}.

Record Package := mkPackage {
  package_id : string;
  package_name : string;
  package_price : float;
  package_credits : Z
}.

Record Payment := mkPayment {
  pay_user_id : nat;
  pay_amount : float;
  pay_gateway : string;
  gateway_order_id : JsString;
  gateway_payment_id : JsString;
  pay_status : string;
  pay_package_id : JsString
}.

(** A Supabase reply [{ data, error }]. *)
Record SbResult (A : Type) := mkSb {
  data : option A;
  error : option string
}.

Definition sb_ok {A} (a : A) : SbResult A := mkSb (Some a) None.
Definition sb_err {A} (e : string) : SbResult A := mkSb None (Some e).

(** [.single()]: exactly one row, otherwise an error and no data. *)
Definition single {A} (rows : list A) : SbResult A :=
  match rows with
  | [r] => sb_ok r
  | _ => sb_err "PGRST116"
  end.

(** Gateway orders. *)
Record Notes := mkNotes {
  note_package_id : string;
  note_phone_number : string;
  note_credits : string
}.

Record OrderData := mkOrderData {
  od_amount : JsNum;
  od_currency : string;
  od_receipt : string;
  od_notes : Notes
}.

Record Order := mkOrder {
  order_id : string;
  order_amount : Z;
  order_currency : string;
  order_receipt : string;
  order_notes : Notes
}.

(** ** Awaited operations and programs over them *)

Inductive Op : Type -> Type :=
(* supabase.from('users').select(..).eq('phone_number', p).single() *)
| SelectUserByPhone (phone : string) : Op (SbResult User)
(* supabase.from('users').select('credits').eq('id', id).single() *)
| SelectUserById (id : nat) : Op (SbResult User)
(* supabase.from('users').insert({ phone_number, credits }).select().single() *)
| InsertUser (phone : string) (c : Z) : Op (SbResult User)
(* supabase.from('users').update({ credits }).eq('id', id)[.gte('credits', m)].select().single() *)
| UpdateUserCredits (id : nat) (c : JsNum) (gte : option Z) : Op (SbResult User)
(* supabase.from('credit_transactions').insert({..}) *)
| InsertTransaction (tx : CreditTransaction) : Op (SbResult unit)
(* supabase.from('packages').select('*').eq('id', id).single() *)
| SelectPackage (id : string) : Op (SbResult Package)
(* supabase.from('payments').insert([{..}]) *)
| InsertPayment (p : Payment) : Op (SbResult unit)
(* razorpay.orders.create(orderData): a rejected promise is [inl] *)
| OrdersCreate (d : OrderData) : Op (string + Order)
(* razorpay.orders.fetch(orderId) *)
| OrdersFetch (id : JsValue) : Op (string + option Order).

Inductive Proc (A : Type) : Type :=
| Ret (a : A)
| Throw (e : string)
| Vis (X : Type) (op : Op X) (k : X -> Proc A).

Arguments Ret {A} a.
Arguments Throw {A} e.
Arguments Vis {A X} op k.

Fixpoint bind {A B} (p : Proc A) (f : A -> Proc B) : Proc B :=
  match p with
  | Ret a => f a
  | Throw e => Throw e
  | Vis op k => Vis op (fun x => bind (k x) f)
  end.

(** [try { p } catch (error) { handler error }] *)
Fixpoint try_catch {A} (p : Proc A) (handler : string -> Proc A) : Proc A :=
  match p with
  | Ret a => Ret a
  | Throw e => handler e
  | Vis op k => Vis op (fun x => try_catch (k x) handler)
  end.

Definition await {X} (op : Op X) : Proc X := Vis op (fun x => Ret x).

(** Awaiting a gateway promise: a rejection is thrown. *)
Definition await_promise {X} (op : Op (string + X)) : Proc X :=
  Vis op (fun r => match r with inl e => Throw e | inr x => Ret x end).

Declare Scope proc_scope.
Delimit Scope proc_scope with proc.
Notation "x <- p ;; q" := (bind p (fun x => q))
  (at level 61, p at next level, right associativity) : proc_scope.
Notation "p ;; q" := (bind p (fun _ => q))
  (at level 61, right associativity) : proc_scope.
Local Open Scope proc_scope.

(** A handler gives each operation its effect on the world and its reply. *)
Definition Handler (W : Type) := forall X, Op X -> W -> W * X.

(** One atomic step of a request: the operation it is waiting for runs. *)
Definition step {W A} (h : Handler W) (w : W) (p : Proc A) : W * Proc A :=
  match p with
  | Vis op k => let (w', x) := h _ op w in (w', k x)
  | _ => (w, p)
  end.

(** A request run to completion without interference. *)
Fixpoint run {W A} (h : Handler W) (w : W) (p : Proc A) : W * (string + A) :=
  match p with
  | Ret a => (w, inr a)
  | Throw e => (w, inl e)
  | Vis op k => let (w', x) := h _ op w in run h w' (k x)
  end.

Definition finished {A} (p : Proc A) : bool :=
  match p with
  | Vis _ _ => false
  | _ => true
  end.

(** Concurrent requests: the scheduler picks which request takes its next
    step. *)
Fixpoint step_nth {W A} (h : Handler W) (w : W) (ts : list (Proc A)) (i : nat)
  : W * list (Proc A) :=
  match ts, i with
  | [], _ => (w, [])
  | t :: rest, O => let (w', t') := step h w t in (w', t' :: rest)
  | t :: rest, S j => let (w', rest') := step_nth h w rest j in (w', t :: rest')
  end.

Fixpoint interleave {W A} (h : Handler W) (w : W) (ts : list (Proc A))
  (sched : list nat) : W * list (Proc A) :=
  match sched with
  | [] => (w, ts)
  | i :: rest => let (w', ts') := step_nth h w ts i in interleave h w' ts' rest
  end.

(** ** The world: the store's tables and the gateway's orders *)

Record World := mkWorld {
  users : list User;
  credit_transactions : list CreditTransaction;
  packages : list Package;
  payments : list Payment;
  orders : list Order;
  next_user_id : nat
}.

Definition set_users (w : World) (us : list User) : World :=
  mkWorld us (credit_transactions w) (packages w) (payments w) (orders w) (next_user_id w).

Definition phone_is (p : string) (u : User) : bool := phone_number u =? p.
Definition id_is (id : nat) (u : User) : bool := Nat.eqb (user_id u) id.
Definition package_is (id : string) (p : Package) : bool := package_id p =? id.

(** The row filter of an update: [.eq('id', id)] and, when present,
    [.gte('credits', m)]. *)
Definition update_filter (id : nat) (gte : option Z) (u : User) : bool :=
  id_is id u &&
  match gte with
  | Some m => (m <=? credits u)%Z
  | None => true
  end.

Definition set_credits (c : Z) (u : User) : User :=
  mkUser (user_id u) (phone_number u) c.

(** The rewrite an update applies to each row of [users]. *)
Definition update_row (id : nat) (gte : option Z) (n : Z) (u : User) : User :=
  if update_filter id gte u then set_credits n u else u.

Definition string_of_nat (n : nat) : string :=
  NilEmpty.string_of_uint (Nat.to_uint n).

Definition find_order (id : string) (os : list Order) : option Order :=
  find (fun o => order_id o =? id) os.

(** The store and the gateway.  The [users] table has a unique constraint on
    [phone_number]; an integer column rejects [NaN]; an insert without
    [.select()] replies with neither data nor error; the gateway rejects an
    order whose amount is no integer. *)
Definition world_handler : Handler World :=
  fun X op =>
    match op in Op X return World -> World * X with
    | SelectUserByPhone p => fun w =>
        (w, single (filter (phone_is p) (users w)))
    | SelectUserById id => fun w =>
        (w, single (filter (id_is id) (users w)))
    | InsertUser p c => fun w =>
        if existsb (phone_is p) (users w)
        then (w, sb_err "23505")
        else
          let u := mkUser (next_user_id w) p c in
          (mkWorld (users w ++ [u]) (credit_transactions w) (packages w)
             (payments w) (orders w) (S (next_user_id w)),
           sb_ok u)
    | UpdateUserCredits id c gte => fun w =>
        match c with
        | NaN => (w, sb_err "22P02")
        | Num n =>
            (set_users w (map (update_row id gte n) (users w)),
             single (map (set_credits n) (filter (update_filter id gte) (users w))))
        end
    | InsertTransaction tx => fun w =>
        (mkWorld (users w) (credit_transactions w ++ [tx]) (packages w)
           (payments w) (orders w) (next_user_id w),
         mkSb None None)
    | SelectPackage id => fun w =>
        (w, single (filter (package_is id) (packages w)))
    | InsertPayment p => fun w =>
        (mkWorld (users w) (credit_transactions w) (packages w)
           (payments w ++ [p]) (orders w) (next_user_id w),
         mkSb None None)
    | OrdersCreate d => fun w =>
        match od_amount d with
        | Num amount =>
            let o := mkOrder ("order_" ++ string_of_nat (length (orders w)))
                       amount (od_currency d) (od_receipt d) (od_notes d) in
            (mkWorld (users w) (credit_transactions w) (packages w) (payments w)
               (orders w ++ [o]) (next_user_id w),
             inr o)
        | NaN => (w, inl "BAD_REQUEST_ERROR")
        end
    | OrdersFetch id => fun w =>
        match id with
        | JStr s =>
            match find_order s (orders w) with
            | Some o => (w, inr (Some o))
            | None => (w, inl "BAD_REQUEST_ERROR")
            end
        | _ => (w, inl "BAD_REQUEST_ERROR")
        end
    end.

Arguments world_handler : clear implicits.

(** ** services/credit.service.js *)

(** [getOrCreateUser]: the surrounding try/catch logs and rethrows. *)
Definition getOrCreateUser (phoneNumber : string) : Proc User :=
  r <- await (SelectUserByPhone phoneNumber) ;;
  match data r, error r with
  | Some existingUser, None => Ret existingUser
  | _, _ =>
      r' <- await (InsertUser phoneNumber 3) ;;
      match error r', data r' with
      | None, Some newUser =>
          await (InsertTransaction
                   (mkTx (user_id newUser) credit (Num 3) "system" None)) ;;
          Ret newUser
      | _, _ => Throw "Failed to create user"
      end
  end.

Record DeductResult := mkDeduct {
  success : bool;
  remainingCredits : Z
}.

(** [deductCredit], lines 97-110: the update errored or matched no row; the
    balance is read again and the call fails ([currentUser?.credits || 0]). *)
Definition deduct_refetch (user : User) : Proc DeductResult :=
  r <- await (SelectUserById (user_id user)) ;;
  Ret (mkDeduct false
         match data r with
         | Some currentUser =>
             if (credits currentUser =? 0)%Z then 0%Z else credits currentUser
         | None => 0%Z
         end).

(** [deductCredit], lines 112-128: the debit is logged and the call succeeds. *)
Definition deduct_commit (user result : User) : Proc DeductResult :=
  await (InsertTransaction
           (mkTx (user_id user) debit (Num 1) "image_generation" None)) ;;
  Ret (mkDeduct true (credits result)).

(** [deductCredit], lines 84-98: the update writes [user.credits - 1],
    computed from the row read by [getOrCreateUser], under the filter
    [credits >= 1]. *)
Definition deduct_update (user : User) : Proc DeductResult :=
  let newCredits := (credits user - 1)%Z in
  r <- await (UpdateUserCredits (user_id user) (Num newCredits) (Some 1%Z)) ;;
  match error r, data r with
  | None, Some result =>
      if (credits result <? 0)%Z
      then deduct_refetch user
      else deduct_commit user result
  | _, _ => deduct_refetch user
  end.

(** [deductCredit], lines 76-82. *)
Definition deduct_check (user : User) : Proc DeductResult :=
  if (credits user <=? 0)%Z
  then Ret (mkDeduct false (credits user))
  else deduct_update user.

Definition deductCredit (phoneNumber : string) : Proc DeductResult :=
  user <- getOrCreateUser phoneNumber ;;
  deduct_check user.

Definition addCredits (phoneNumber : string) (amount : JsNum) (source : string)
  (referenceId : JsString) : Proc User :=
  user <- getOrCreateUser phoneNumber ;;
  let newCredits := js_add (Num (credits user)) amount in
  r <- await (UpdateUserCredits (user_id user) newCredits None) ;;
  match error r, data r with
  | None, Some updatedUser =>
      await (InsertTransaction
               (mkTx (user_id user) credit amount source referenceId)) ;;
      Ret updatedUser
  | _, _ => Throw "Failed to add credits"
  end.

(** ** config/env.js *)

Record Config := mkConfig {
  bot_secret : JsString;
  razorpay_keyId : JsString;
  razorpay_keySecret : JsString;
  razorpay_webhookSecret : JsString
}.

(** ** utils/response.util.js and the controllers' replies *)

Inductive ResponseData :=
| NoData
| OrderCreated (order_id : string) (amount : Z) (currency : string) (package : Package)
| PaymentVerified (payment_id order_id : JsString) (credits_added remaining_credits : Z).

Inductive Body :=
| Envelope (status message : string) (d : ResponseData)
| ErrorBody (error : string)
| StatusBody (status : string).

Record Response := mkResponse {
  status_code : nat;
  body : Body
}.

(** What a controller does with a request: it answers, or hands an error to
    [next]. *)
Inductive Outcome :=
| Responded (r : Response)
| Next (error : string).

Definition sendSuccess (message : string) (d : ResponseData) : Outcome :=
  Responded (mkResponse 200 (Envelope "SUCCESS" message d)).

Definition sendError (message : string) (statusCode : nat) : Outcome :=
  Responded (mkResponse statusCode (Envelope "ERROR" message NoData)).

(** ** middlewares/botAuth.middleware.js *)

Inductive Middleware :=
| CallNext
| Reply (o : Outcome).

Definition authenticateBot (config : Config) (x_bot_secret : JsString) : Middleware :=
  if negb (truthy (bot_secret config)) then CallNext
  else if negb (truthy x_bot_secret) then Reply (sendError "Missing x-bot-secret header" 401)
  else
    match x_bot_secret, bot_secret config with
    | Some given, Some expected =>
        if negb (given =? expected)
        then Reply (sendError "Invalid bot secret" 401)
        else CallNext
    | _, _ => Reply (sendError "Invalid bot secret" 401)
    end.

Definition string_of_Z (z : Z) : string :=
  NilEmpty.string_of_int (Z.to_int z).

Definition lift {A} (r : string + A) : Proc A :=
  match r with
  | inl e => Throw e
  | inr a => Ret a
  end.

(** [crypto.timingSafeEqual(Buffer.from(a), Buffer.from(b))]: a [RangeError]
    when the byte lengths differ. *)
(** What a handler finds in [req.body]: the bytes [express.raw] has read, or
    the value a JSON body parser mounted before it has put there. *)
Inductive ReqBody :=
| RawBody (bytes : string)
| ParsedBody (value : JsValue).

(** The bytes a body offers to a hash, when it is bytes or a string. *)
Definition hmac_input (body : ReqBody) : option string :=
  match body with
  | RawBody bytes => Some bytes
  | ParsedBody (JStr s) => Some s
  | ParsedBody _ => None
  end.

(** [rawBody.toString()] *)
Definition body_toString (body : ReqBody) : string + string :=
  match body with
  | RawBody bytes => inr bytes
  | ParsedBody (JStr s) => inr s
  | ParsedBody (JObj _) => inr "[object Object]"
  | ParsedBody (JBool b) => inr (if b then "true" else "false")
  | ParsedBody (JNumber z) => inr (string_of_Z z)
  | ParsedBody JUndefined | ParsedBody JNull => inl "TypeError"
  end.

Definition timingSafeEqual (a b : string) : string + bool :=
  if Nat.eqb (String.length a) (String.length b)
  then inr (a =? b)
  else inl "RangeError".

Section Runtime.

(** Library functions of the runtime: [crypto.createHmac('sha256', key)
    .update(msg).digest('hex')], [JSON.parse] and [parseInt]. *)
Variable hmac_sha256_hex : string -> string -> string.
Variable JSON_parse : string -> string + JsValue.
Variable parseInt : string -> JsNum.

Variable config : Config.

(** *** services/payment.service.js *)

(** [razorpay]: the client exists only when both keys are set. *)
Definition razorpay : bool :=
  truthy (razorpay_keyId config) && truthy (razorpay_keySecret config).

Definition createRazorpayOrder (now : nat) (amount : JsNum) (currency : string)
  (receipt : JsString) (notes : Notes) : Proc Order :=
  if negb razorpay
  then Throw "Razorpay not configured. Please set RAZORPAY_KEY_ID and RAZORPAY_KEY_SECRET environment variables."
  else
    let orderData :=
      mkOrderData (Math_round_num amount) currency
        (if truthy receipt then template receipt
         else ("receipt_" ++ string_of_nat now)%string)
        notes in
    order <- await_promise (OrdersCreate orderData) ;;
    Ret order.

(** The comparison shared by both signature checks; a throw inside the
    [try] block makes the check answer [false]. *)
Definition safe_compare (expectedSignature : string) (signature : JsString) : bool :=
  match signature with
  | Some received =>
      if negb (truthy signature)
         || negb (Nat.eqb (String.length expectedSignature) (String.length received))
      then false
      else
        match timingSafeEqual expectedSignature received with
        | inr isValid => isValid
        | inl _ => false
        end
  | None => false
  end.

Definition verifyRazorpayPayment (razorpayOrderId razorpayPaymentId
  razorpaySignature : JsString) : bool :=
  if negb (truthy (razorpay_keySecret config)) then false
  else
    let secret := template (razorpay_keySecret config) in
    let signatureString :=
      (template razorpayOrderId ++ "|" ++ template razorpayPaymentId)%string in
    let expectedSignature := hmac_sha256_hex secret signatureString in
    safe_compare expectedSignature razorpaySignature.

(** [hmac.update(rawBody)] throws a [TypeError] on anything but bytes or a
    string; the [catch] then answers [false]. *)
Definition verifyRazorpayWebhook (rawBody : ReqBody) (signature : JsString) : bool :=
  if negb (truthy (razorpay_webhookSecret config)) then false
  else
    let secret := template (razorpay_webhookSecret config) in
    match hmac_input rawBody with
    | Some bytes =>
        let expectedSignature := hmac_sha256_hex secret bytes in
        safe_compare expectedSignature signature
    | None => false
    end.

(** *** controllers/payment.controller.js *)

Definition createOrder (now : nat) (package_id phone_number : JsString)
  : Proc Outcome :=
  try_catch
    (if negb (truthy package_id) || negb (truthy phone_number)
     then Ret (sendError "Package ID and phone number are required" 400)
     else
       r <- await (SelectPackage (template package_id)) ;;
       match error r, data r with
       | None, Some packageData =>
           let amount :=
             Math_round_double (package_price packageData * 100)%float in
           order <- createRazorpayOrder now amount "INR"
                      (Some ("receipt_" ++ string_of_nat now ++ "_"
                             ++ template package_id)%string)
                      (mkNotes (template package_id) (template phone_number)
                         (string_of_Z (package_credits packageData))) ;;
           Ret (sendSuccess "Order created successfully"
                  (OrderCreated (order_id order) (order_amount order)
                     (order_currency order) packageData))
       | _, _ => Ret (sendError "Package not found" 404)
       end)
    (fun error => Ret (Next error)).

Record VerifyRequest := mkVerifyRequest {
  razorpay_order_id : JsString;
  razorpay_payment_id : JsString;
  razorpay_signature : JsString;
  req_phone_number : JsString;
  req_package_id : JsString
}.

Definition verifyPayment (req : VerifyRequest) : Proc Outcome :=
  try_catch
    (if negb (truthy (razorpay_order_id req))
        || negb (truthy (razorpay_payment_id req))
        || negb (truthy (razorpay_signature req))
        || negb (truthy (req_phone_number req))
        || negb (truthy (req_package_id req))
     then Ret (sendError "All payment verification fields are required" 400)
     else
       let isValid :=
         verifyRazorpayPayment (razorpay_order_id req) (razorpay_payment_id req)
           (razorpay_signature req) in
       if negb isValid
       then Ret (sendError "Invalid payment signature" 400)
       else
         ru <- await (SelectUserByPhone (template (req_phone_number req))) ;;
         match error ru, data ru with
         | None, Some userData =>
             rp <- await (SelectPackage (template (req_package_id req))) ;;
             match error rp, data rp with
             | None, Some packageData =>
                 (* a failed insert is logged and crediting continues *)
                 await (InsertPayment
                          (mkPayment (user_id userData) (package_price packageData)
                             "razorpay" (razorpay_order_id req)
                             (razorpay_payment_id req) "success"
                             (req_package_id req))) ;;
                 updatedUser <- addCredits (template (req_phone_number req))
                                  (Num (package_credits packageData)) "payment"
                                  (razorpay_payment_id req) ;;
                 Ret (sendSuccess "Payment verified and credits added successfully"
                        (PaymentVerified (razorpay_payment_id req)
                           (razorpay_order_id req) (package_credits packageData)
                           (credits updatedUser)))
             | _, _ => Ret (sendError "Package details not found" 404)
             end
         | _, _ => Ret (sendError "User profile not found. Please register first." 404)
         end)
    (fun error => Ret (Next error)).

Definition reference_of (v : JsValue) : JsString :=
  match v with
  | JStr s => Some s
  | _ => None
  end.

Definition is_payment_captured (v : JsValue) : bool :=
  match v with
  | JStr s => s =? "payment.captured"
  | _ => false
  end.

(** [webhook]: only the two signature checks answer 400; the [catch] block
    answers 200 as well.  [razorpay.orders.fetch] on the missing client is a
    [TypeError]. *)
Definition webhook (rawBody : ReqBody) (signature : JsString) : Proc Outcome :=
  try_catch
    (if negb (truthy signature)
     then Ret (Responded (mkResponse 400 (ErrorBody "Missing Razorpay signature")))
     else if negb (verifyRazorpayWebhook rawBody signature)
     then Ret (Responded (mkResponse 400 (ErrorBody "Invalid webhook signature")))
     else
       text <- lift (body_toString rawBody) ;;
       event <- lift (JSON_parse text) ;;
       kind <- lift (prop event "event") ;;
       if is_payment_captured kind
       then
         payload <- lift (prop event "payload") ;;
         payment <- lift (prop payload "payment") ;;
         paymentEntity <- lift (prop payment "entity") ;;
         orderId <- lift (prop paymentEntity "order_id") ;;
         fetched <- (if negb razorpay then Throw "TypeError"
                     else await_promise (OrdersFetch orderId)) ;;
         match fetched with
         | None => Ret (Responded (mkResponse 200 (StatusBody "ok")))
         | Some order =>
             let notes := order_notes order in
             paymentId <- lift (prop paymentEntity "id") ;;
             addCredits (note_phone_number notes) (parseInt (note_credits notes))
               "webhook_payment" (reference_of paymentId) ;;
             Ret (Responded (mkResponse 200 (StatusBody "ok")))
         end
       else Ret (Responded (mkResponse 200 (StatusBody "ok"))))
    (fun error => Ret (Responded (mkResponse 200 (StatusBody "error")))).

End Runtime.

(** ** Auxiliary notions used in the statements *)

(** A program that, whatever the operations reply, can only return [a] or
    throw. *)
Definition returns_only {W A} (h : Handler W) (a : A) (p : Proc A) : Prop :=
  forall w w' x, run h w p = (w', inr x) -> x = a.

(** A stand-in for the keyed hash in closed examples. *)
Definition demo_hmac (key msg : string) : string := (key ++ ":" ++ msg)%string.

(** The store holds the row [u], alone under its phone number and under
    its id. *)
Definition has_user (w : World) (u : User) : Prop :=
  filter (phone_is (phone_number u)) (users w) = [u] /\
  filter (id_is (user_id u)) (users w) = [u].

Definition all_fields_present (req : VerifyRequest) : bool :=
  truthy (razorpay_order_id req) && truthy (razorpay_payment_id req)
  && truthy (razorpay_signature req) && truthy (req_phone_number req)
  && truthy (req_package_id req).

(** The transaction that records the starter credits of a new user. *)
Definition starter_transaction (u : User) : CreditTransaction :=
  mkTx (user_id u) credit (Num 3) "system" None.

(** The world after [n] credits were added to the row [u] and the
    transaction [tx] was logged. *)
Definition credited (w : World) (u : User) (n : Z) (tx : CreditTransaction) : World :=
  mkWorld (map (update_row (user_id u) None (credits u + n)) (users w))
    (credit_transactions w ++ [tx]) (packages w) (payments w) (orders w)
    (next_user_id w).

(** The order the gateway hands out next. *)
Definition next_order_id (w : World) : string :=
  ("order_" ++ string_of_nat (length (orders w)))%string.

(** The order [createOrder] places for package [P] when the amount it sends
    is [amount]. *)
Definition placed_order (w : World) (now : nat) (pkgId phone : string)
  (P : Package) (amount : Z) : Order :=
  mkOrder (next_order_id w) amount "INR"
    ("receipt_" ++ string_of_nat now ++ "_" ++ pkgId)%string
    (mkNotes pkgId phone (string_of_Z (package_credits P))).

Definition order_placed (w : World) (o : Order) : World :=
  mkWorld (users w) (credit_transactions w) (packages w) (payments w)
    (orders w ++ [o]) (next_user_id w).

Definition payment_logged (w : World) (p : Payment) : World :=
  mkWorld (users w) (credit_transactions w) (packages w) (payments w ++ [p])
    (orders w) (next_user_id w).

(** The body of a [payment.captured] event, once parsed. *)
Definition captured_event (paymentId orderId : string) : JsValue :=
  JObj [("event", JStr "payment.captured");
        ("payload",
         JObj [("payment",
                JObj [("entity",
                       JObj [("id", JStr paymentId);
                             ("order_id", JStr orderId)])])])].

(** Stand-ins for [JSON.parse] and [parseInt] in closed examples: the first
    reads every body as the captured event of payment [pay_1] on order
    [order_0], the second reads the one string [50]. *)
Definition demo_JSON_parse (body : string) : string + JsValue :=
  inr (captured_event "pay_1" "order_0").

Definition demo_parseInt (s : string) : JsNum :=
  if s =? "50" then Num 50 else NaN.

(** *** Two racing deductions on a balance of one *)

(** Where a [deductCredit] request that met the balance 1 can be. *)
Inductive Stage :=
| AtStart      (* about to look the user up *)
| AtUpdate     (* read balance 1, about to write 0 where credits >= 1 *)
| AtCommit     (* its update went through, about to log the debit *)
| AtRefetch    (* its update matched no row, about to read again *)
| Won          (* returned { success: true, remainingCredits: 0 } *)
| Lost.        (* returned { success: false, remainingCredits: 0 } *)

Definition stage_proc (phone : string) (id : nat) (s : Stage) : Proc DeductResult :=
  match s with
  | AtStart => deductCredit phone
  | AtUpdate => deduct_update (mkUser id phone 1)
  | AtCommit => deduct_commit (mkUser id phone 1) (mkUser id phone 0)
  | AtRefetch => deduct_refetch (mkUser id phone 1)
  | Won => Ret (mkDeduct true 0)
  | Lost => Ret (mkDeduct false 0)
  end.

(** The balance, [spent] when it is 0 and not [spent] when it is 1, and the
    user's row with that balance. *)
Definition balance_of (spent : bool) : Z := if spent then 0%Z else 1%Z.

Definition race_row (phone : string) (id : nat) (spent : bool) : User :=
  mkUser id phone (balance_of spent).

(** How often the scheduler picks request [i]. *)
Definition picks (i : nat) (sched : list nat) : nat :=
  count_occ Nat.eq_dec sched i.

Definition both_finished {A} (ts : list (Proc A)) : bool :=
  forallb finished ts.

Definition stage_step (spent : bool) (s : Stage) : bool * Stage :=
  match s with
  | AtStart => if spent then (spent, Lost) else (spent, AtUpdate)
  | AtUpdate => if spent then (spent, AtRefetch) else (true, AtCommit)
  | AtCommit => (spent, Won)
  | AtRefetch => (spent, Lost)
  | Won => (spent, Won)
  | Lost => (spent, Lost)
  end.

Definition rank (s : Stage) : nat :=
  match s with
  | AtStart => 0
  | AtUpdate => 1
  | AtCommit | AtRefetch => 2
  | Won | Lost => 3
  end.

Definition before_write (s : Stage) : bool :=
  match s with
  | AtStart | AtUpdate => true
  | _ => false
  end.

Definition winning (s : Stage) : bool :=
  match s with
  | AtCommit | Won => true
  | _ => false
  end.

Definition losing (s : Stage) : bool :=
  match s with
  | AtStart | AtUpdate | AtRefetch | Lost => true
  | _ => false
  end.

(** While the credit is unspent both requests are before their write; once
    it is spent exactly one of them is the winner. *)
Definition race_inv (spent : bool) (s0 s1 : Stage) : bool :=
  if spent
  then (winning s0 && losing s1) || (losing s0 && winning s1)
  else before_write s0 && before_write s1.

(** *** Balances and the values requests write *)

Definition op_writes_nonneg {X} (op : Op X) : Prop :=
  match op with
  | InsertUser _ c => (0 <= c)%Z
  | UpdateUserCredits _ (Num n) _ => (0 <= n)%Z
  | _ => True
  end.

(** Whatever the operations reply, the program only ever writes
    non-negative balances. *)
Fixpoint writes_nonneg {A} (p : Proc A) : Prop :=
  match p with
  | Vis op k => op_writes_nonneg op /\ forall x, writes_nonneg (k x)
  | _ => True
  end.

Definition balances_nonneg (w : World) : Prop :=
  Forall (fun u => (0 <= credits u)%Z) (users w).

(** The conditional decrement in the specification's words: in one write,
    [update balance = balance - 1 where balance >= 1], on the balance the
    store holds at that moment. *)
Definition spec_conditional_decrement (id : nat) (w : World)
  : World * SbResult User :=
  (set_users w
     (map (fun u => if update_filter id (Some 1%Z) u
                    then set_credits (credits u - 1) u else u) (users w)),
   single (map (fun u => set_credits (credits u - 1) u)
             (filter (update_filter id (Some 1%Z)) (users w)))).

(** The write [deductCredit] issues for the row [user] it has read. *)
Definition deduct_write (user : User) (w : World) : World * SbResult User :=
  world_handler _
    (UpdateUserCredits (user_id user) (Num (credits user - 1)) (Some 1%Z)) w.

Definition debit_transaction (id : nat) : CreditTransaction :=
  mkTx id debit (Num 1) "image_generation" None.

(** The world after [verifyPayment] logged the payment and credited the
    package [P] to [u]. *)
Definition payment_verified (w : World) (u : User) (P : Package)
  (orderId payId pkgId : string) : World :=
  credited
    (payment_logged w
       (mkPayment (user_id u) (package_price P) "razorpay" (Some orderId)
          (Some payId) "success" (Some pkgId)))
    u (package_credits P)
    (mkTx (user_id u) credit (Num (package_credits P)) "payment" (Some payId)).

(** Example inputs. *)
Definition package_50 : Package := mkPackage "pkg_50" "Starter" 100 50.

Definition package_1005 : Package := mkPackage "pkg_1005" "Odd" 1.005 1.

Definition world_1005 : World :=
  mkWorld [mkUser 7 "+911234567890" 3] [] [package_1005] [] [] 8.

Definition world_one : World :=
  mkWorld [mkUser 7 "+911234567890" 1] [] [] [] [] 8.

Definition world_two : World :=
  mkWorld [mkUser 7 "+911234567890" 2] [] [] [] [] 8.

Definition world_shop : World :=
  mkWorld [mkUser 7 "+911234567890" 3] [] [package_50] [] [] 8.

Definition order_0 : Order :=
  mkOrder "order_0" 10000 "INR" "receipt_1700_pkg_50"
    (mkNotes "pkg_50" "+911234567890" "50").

Definition world_paid : World := order_placed world_shop order_0.

Definition world_empty : World := mkWorld [] [] [] [] [] 1.

Definition config_example : Config :=
  mkConfig None (Some "rzp_test_key") (Some "rzp_test_secret") (Some "whsec_test").

Definition config_unset : Config := mkConfig None None None None.

Definition req_without_signature : VerifyRequest :=
  mkVerifyRequest (Some "order_0") (Some "pay_1") None (Some "+911234567890")
    (Some "pkg_50").

(** ** Further code of the same files *)

(** *** controllers/bot.controller.js *)

Record BotData := mkBotData {
  remaining_credits : Z;
  user_exists : option bool
}.

Record BotResponse := mkBotResponse {
  bot_status_code : nat;
  bot_status : string;
  bot_message : string;
  bot_data : option BotData
}.

Inductive BotOutcome :=
| BotResponded (r : BotResponse)
| BotNext (error : string).

(** [sendSuccess] and [sendStatus] of utils/response.util.js, on the bot
    endpoints' data. *)
Definition sendSuccessBot (message : string) (d : BotData) : BotOutcome :=
  BotResponded (mkBotResponse 200 "SUCCESS" message (Some d)).

Definition sendStatus (status message : string) (d : BotData) (statusCode : nat)
  : BotOutcome :=
  BotResponded (mkBotResponse statusCode status message (Some d)).

(** [`credit${n !== 1 ? 's' : ''}`] *)
Definition credit_word (n : Z) : string :=
  ("credit" ++ (if (n =? 1)%Z then "" else "s"))%string.

Definition getCredits (phone : JsString) : Proc BotOutcome :=
  try_catch
    (if negb (truthy phone)
     then Ret (BotResponded
                 (mkBotResponse 400 "ERROR" "Phone number is required" None))
     else
       user <- getOrCreateUser (template phone) ;;
       let message :=
         if (0 <? credits user)%Z
         then ("You have " ++ string_of_Z (credits user) ++ " "
               ++ credit_word (credits user) ++ " remaining.")%string
         else "You have no credits remaining." in
       Ret (sendSuccessBot message (mkBotData (credits user) (Some true))))
    (fun error => Ret (BotNext error)).

Definition deductCredits (phone : JsString) : Proc BotOutcome :=
  try_catch
    (if negb (truthy phone)
     then Ret (BotResponded
                 (mkBotResponse 400 "ERROR" "Phone number is required" None))
     else
       result <- deductCredit (template phone) ;;
       if negb (success result)
       then Ret (sendStatus "INSUFFICIENT_CREDITS"
                   "You have no credits left. Please purchase a plan to continue."
                   (mkBotData (remainingCredits result) None) 200)
       else
         let message :=
           if (0 <? remainingCredits result)%Z
           then ("Image generated successfully. You have "
                 ++ string_of_Z (remainingCredits result) ++ " "
                 ++ credit_word (remainingCredits result) ++ " remaining.")%string
           else "Image generated successfully. You have no credits remaining." in
         Ret (sendSuccessBot message (mkBotData (remainingCredits result) None)))
    (fun error => Ret (BotNext error)).

(** routes/bot.routes.js: [router.use(authenticateBot)] in front of a bot
    controller. *)
Definition bot_route (config : Config) (x_bot_secret : JsString)
  (controller : Proc BotOutcome) : Proc (Outcome + BotOutcome) :=
  match authenticateBot config x_bot_secret with
  | CallNext => r <- controller ;; Ret (inr r)
  | Reply o => Ret (inl o)
  end.

(** *** services/credit.service.js: getCreditHistory *)

(** The log is kept in insertion order, which is the order of [created_at];
    [.order('created_at', { ascending: false }).limit(limit)] reads it
    backwards.  The query changes nothing, so it is a function of the world. *)
Definition getCreditHistory (w : World) (userId : nat) (limit : nat)
  : list CreditTransaction :=
  firstn limit
    (rev (filter (fun tx => Nat.eqb (tx_user_id tx) userId)
            (credit_transactions w))).

(** *** The ledger *)

(** What a transaction says it did to its user's balance. *)
Definition tx_delta (tx : CreditTransaction) : Z :=
  match tx_credits tx, tx_action tx with
  | Num n, credit => n
  | Num n, debit => (- n)%Z
  | NaN, _ => 0%Z
  end.

(** Sum of the credit transactions minus sum of the debit transactions of
    user [id]. *)
Fixpoint ledger_sum (id : nat) (txs : list CreditTransaction) : Z :=
  match txs with
  | [] => 0%Z
  | tx :: rest =>
      ((if Nat.eqb (tx_user_id tx) id then tx_delta tx else 0)
       + ledger_sum id rest)%Z
  end.

(** A store as the service leaves it: phone numbers and ids are unique, ids
    come from the store's generator, and every balance is the sum of its
    user's transactions. *)
Definition ledger_ok (w : World) : Prop :=
  NoDup (map phone_number (users w)) /\
  NoDup (map user_id (users w)) /\
  Forall (fun u => user_id u < next_user_id w) (users w) /\
  Forall (fun tx => tx_user_id tx < next_user_id w) (credit_transactions w) /\
  Forall (fun u => credits u = ledger_sum (user_id u) (credit_transactions w))
    (users w).

(** The calls of the credit service, run one after the other. *)
Inductive ServiceCall :=
| CallGetOrCreateUser (phone : string)
| CallDeductCredit (phone : string)
| CallAddCredits (phone : string) (amount : Z) (source : string)
    (referenceId : JsString).

Definition run_call (w : World) (c : ServiceCall) : World :=
  match c with
  | CallGetOrCreateUser phone =>
      fst (run world_handler w (getOrCreateUser phone))
  | CallDeductCredit phone =>
      fst (run world_handler w (deductCredit phone))
  | CallAddCredits phone amount source referenceId =>
      fst (run world_handler w (addCredits phone (Num amount) source referenceId))
  end.

Definition run_calls (w : World) (cs : list ServiceCall) : World :=
  fold_left run_call cs w.

(** A request for [verifyPayment] carrying the keyed hash of its order and
    payment ids. *)
Definition signed_request (hmac : string -> string -> string)
  (secret orderId payId phone pkgId : string) : VerifyRequest :=
  mkVerifyRequest (Some orderId) (Some payId)
    (Some (hmac secret (orderId ++ "|" ++ payId)%string))
    (Some phone) (Some pkgId).

(** *** Requests of different kinds side by side *)

Definition as_left {A B} (p : Proc A) : Proc (A + B) :=
  a <- p ;; Ret (inl a).

Definition as_right {A B} (p : Proc B) : Proc (A + B) :=
  b <- p ;; Ret (inr b).

(** [addCredits] after [getOrCreateUser] returned [user]: the update with the
    sum computed from that row, then the log entry. *)
Definition add_log (user updatedUser : User) (amount : JsNum) (source : string)
  (referenceId : JsString) : Proc User :=
  await (InsertTransaction
           (mkTx (user_id user) credit amount source referenceId)) ;;
  Ret updatedUser.

Definition add_write (user : User) (amount : JsNum) (source : string)
  (referenceId : JsString) : Proc User :=
  let newCredits := js_add (Num (credits user)) amount in
  r <- await (UpdateUserCredits (user_id user) newCredits None) ;;
  match error r, data r with
  | None, Some updatedUser => add_log user updatedUser amount source referenceId
  | _, _ => Throw "Failed to add credits"
  end.

(** The world after a new user with the starter credits was created. *)
Definition user_created (w : World) (phone : string) : World :=
  mkWorld (users w ++ [mkUser (next_user_id w) phone 3])
    (credit_transactions w
     ++ [starter_transaction (mkUser (next_user_id w) phone 3)])
    (packages w) (payments w) (orders w) (S (next_user_id w)).

(** The world after one credit of [u] was deducted and logged. *)
Definition debited (w : World) (u : User) : World :=
  mkWorld (map (update_row (user_id u) (Some 1%Z) (credits u - 1)) (users w))
    (credit_transactions w ++ [debit_transaction (user_id u)])
    (packages w) (payments w) (orders w) (next_user_id w).

(** The same request sent [k] times, one after the other: the world at the
    end and the answers in order. *)
Fixpoint replay {A} (p : Proc A) (k : nat) (w : World)
  : World * list (string + A) :=
  match k with
  | O => (w, [])
  | S k' =>
      let (w1, r) := run world_handler w p in
      let (w2, rs) := replay p k' w1 in
      (w2, r :: rs)
  end.

Unset Implicit Arguments.

(** * Properties *)

(** ** Running programs *)

Section Running.

Variables (W : Type) (h : Handler W).

Lemma run_bind : forall A B (p : Proc A) (f : A -> Proc B) w,
  run h w (bind p f) =
  match run h w p with
  | (w', inr a) => run h w' (f a)
  | (w', inl e) => (w', inl e)
  end.
Proof.
  induction p as [a | e | X op k IH]; intros f w; simpl; auto.
  destruct (h _ op w) as [w' x]. apply IH.
Qed.

Lemma run_try_catch : forall A (p : Proc A) (c : string -> Proc A) w,
  run h w (try_catch p c) =
  match run h w p with
  | (w', inr a) => (w', inr a)
  | (w', inl e) => run h w' (c e)
  end.
Proof.
  induction p as [a | e | X op k IH]; intros c w; simpl; auto.
  destruct (h _ op w) as [w' x]. apply IH.
Qed.

Lemma returns_only_ret : forall A (a : A), returns_only h a (Ret a).
Proof. intros A a w w' x H. simpl in H. congruence. Qed.

Lemma returns_only_throw : forall A (a : A) e, returns_only h a (Throw e).
Proof. intros A a e w w' x H. simpl in H. discriminate. Qed.

Lemma returns_only_bind : forall A B (p : Proc A) (f : A -> Proc B) (b : B),
  (forall a, returns_only h b (f a)) -> returns_only h b (bind p f).
Proof.
  intros A B p f b Hf w w' x H. rewrite run_bind in H.
  destruct (run h w p) as [w1 [e | a]]; [discriminate |].
  eapply Hf; eauto.
Qed.

Lemma try_catch_total : forall A (p : Proc A) (a b : A) w,
  returns_only h a p ->
  exists w', run h w (try_catch p (fun _ => Ret b)) = (w', inr a) \/
             run h w (try_catch p (fun _ => Ret b)) = (w', inr b).
Proof.
  intros A p a b w Hp. rewrite run_try_catch.
  destruct (run h w p) as [w1 [e | x]] eqn:E.
  - exists w1. right. reflexivity.
  - exists w1. left. rewrite (Hp _ _ _ E). reflexivity.
Qed.

End Running.

Create HintDb procs.
#[local] Hint Resolve returns_only_ret returns_only_throw : procs.

(** ** Signature checks *)

Section Signatures.

Variable hmac : string -> string -> string.
Variable config : Config.

Lemma truthy_some : forall v, truthy v = true -> exists s, v = Some s /\ s <> "".
Proof.
  intros [s |] H; simpl in H; [| discriminate].
  exists s. split; [reflexivity |].
  intros ->. discriminate.
Qed.

Lemma safe_compare_true_iff : forall expected signature,
  truthy signature = true ->
  (safe_compare expected signature = true <-> signature = Some expected).
Proof.
  intros expected signature Ht.
  destruct (truthy_some _ Ht) as [s [-> _]].
  unfold safe_compare, timingSafeEqual. rewrite Ht. simpl.
  destruct (Nat.eqb (String.length expected) (String.length s)) eqn:El; simpl.
  - rewrite String.eqb_eq. split; [intros -> | intros [= ->]]; reflexivity.
  - split; [discriminate |]. intros [= ->].
    rewrite Nat.eqb_refl in El. discriminate.
Qed.

Lemma safe_compare_falsy : forall expected signature,
  truthy signature = false -> safe_compare expected signature = false.
Proof.
  intros expected [s |] Ht; unfold safe_compare; [| reflexivity].
  rewrite Ht. reflexivity.
Qed.

Lemma safe_compare_mismatch : forall expected signature,
  signature <> Some expected -> safe_compare expected signature = false.
Proof.
  intros expected signature Hne.
  destruct (truthy signature) eqn:Ht.
  - destruct (safe_compare expected signature) eqn:E; [| reflexivity].
    apply safe_compare_true_iff in E; [contradiction | assumption].
  - apply safe_compare_falsy; assumption.
Qed.

Lemma verifyRazorpayPayment_mismatch : forall orderId paymentId signature,
  (forall secret, razorpay_keySecret config = Some secret ->
     signature <> Some (hmac secret (template orderId ++ "|" ++ template paymentId)%string)) ->
  verifyRazorpayPayment hmac config orderId paymentId signature = false.
Proof.
  intros orderId paymentId signature Hne. unfold verifyRazorpayPayment.
  destruct (truthy (razorpay_keySecret config)) eqn:Hs; simpl; [| reflexivity].
  destruct (truthy_some _ Hs) as [secret [Hsec _]].
  rewrite Hsec. simpl. apply safe_compare_mismatch. apply Hne. assumption.
Qed.

End Signatures.

(** ** Payment verification *)

Lemma verifyPayment_invalid : forall hmac config req,
  verifyRazorpayPayment hmac config (razorpay_order_id req)
    (razorpay_payment_id req) (razorpay_signature req) = false ->
  verifyPayment hmac config req =
  Ret (sendError
         (if all_fields_present req then "Invalid payment signature"
          else "All payment verification fields are required") 400).
Proof.
  intros hmac config req Hv. unfold verifyPayment, all_fields_present.
  rewrite Hv.
  destruct (truthy (razorpay_order_id req)), (truthy (razorpay_payment_id req)),
    (truthy (razorpay_signature req)), (truthy (req_phone_number req)),
    (truthy (req_package_id req)); reflexivity.
Qed.

(** C5 (as amended): a request whose signature differs from the keyed hash
    of [orderId|paymentId] is answered 400 without awaiting any store
    operation, so nothing is written and nothing is credited; the message is
    the invalid-signature one when all five fields are present and the
    missing-fields one otherwise (an absent signature is a missing field). *)
Theorem verifyPayment_rejects_mismatched_signature :
  forall hmac config req,
  (forall secret, razorpay_keySecret config = Some secret ->
     razorpay_signature req <>
     Some (hmac secret (template (razorpay_order_id req) ++ "|"
                        ++ template (razorpay_payment_id req))%string)) ->
  verifyRazorpayPayment hmac config (razorpay_order_id req)
    (razorpay_payment_id req) (razorpay_signature req) = false /\
  verifyPayment hmac config req =
    Ret (sendError
           (if all_fields_present req then "Invalid payment signature"
            else "All payment verification fields are required") 400) /\
  forall W (h : Handler W) w,
    fst (run h w (verifyPayment hmac config req)) = w.
Proof.
  intros hmac config req Hne.
  assert (Hv := verifyRazorpayPayment_mismatch hmac config _ _ _ Hne).
  split; [exact Hv |].
  rewrite (verifyPayment_invalid _ _ _ Hv).
  split; reflexivity.
Qed.

Lemma verifyPayment_rejects_mismatched_signature_witness :
  verifyRazorpayPayment demo_hmac config_example (Some "order_0") (Some "pay_1")
    (Some "forged") = false /\
  verifyPayment demo_hmac config_example
    (mkVerifyRequest (Some "order_0") (Some "pay_1") (Some "forged")
       (Some "+911234567890") (Some "pkg_50")) =
    Ret (sendError "Invalid payment signature" 400).
Proof.
  destruct (verifyPayment_rejects_mismatched_signature demo_hmac config_example
              (mkVerifyRequest (Some "order_0") (Some "pay_1") (Some "forged")
                 (Some "+911234567890") (Some "pkg_50"))) as [H1 [H2 _]].
  - intros secret [= <-]. simpl. discriminate.
  - split; [exact H1 | exact H2].
Defined.

(** C5 (as stated) fails: with the signature absent the answer is the
    missing-fields error, not the invalid-signature one. *)
Lemma verifyPayment_absent_signature_counterexample :
  razorpay_signature req_without_signature <>
    Some (demo_hmac "rzp_test_secret" "order_0|pay_1") /\
  verifyPayment demo_hmac config_example req_without_signature =
    Ret (sendError "All payment verification fields are required" 400) /\
  verifyPayment demo_hmac config_example req_without_signature <>
    Ret (sendError "Invalid payment signature" 400).
Proof.
  split; [discriminate |].
  split; [reflexivity | discriminate].
Qed.

(** C10: without a configured key secret the payment signature check
    answers [false] on every input, so the verify endpoint answers 400
    without awaiting any operation and the world is unchanged; the bot
    boundary, on the contrary, lets every request through when its secret
    is not configured. *)
Theorem verifyPayment_fails_closed_without_secret :
  forall hmac config,
  truthy (razorpay_keySecret config) = false ->
  (forall orderId paymentId signature,
     verifyRazorpayPayment hmac config orderId paymentId signature = false) /\
  (forall req,
     verifyPayment hmac config req =
     Ret (sendError
            (if all_fields_present req then "Invalid payment signature"
             else "All payment verification fields are required") 400)) /\
  (forall req W (h : Handler W) w,
     fst (run h w (verifyPayment hmac config req)) = w) /\
  (forall botConfig, truthy (bot_secret botConfig) = false ->
     forall header, authenticateBot botConfig header = CallNext).
Proof.
  intros hmac config Hs.
  assert (Hv : forall o p s, verifyRazorpayPayment hmac config o p s = false).
  { intros o p s. unfold verifyRazorpayPayment. rewrite Hs. reflexivity. }
  split; [exact Hv |].
  split; [intros req; apply verifyPayment_invalid, Hv |].
  split.
  - intros req W h w. rewrite (verifyPayment_invalid _ _ _ (Hv _ _ _)).
    reflexivity.
  - intros botConfig Hb header. unfold authenticateBot.
    rewrite Hb. reflexivity.
Qed.

Lemma verifyPayment_fails_closed_without_secret_witness :
  verifyRazorpayPayment demo_hmac config_unset (Some "order_0") (Some "pay_1")
    (Some (demo_hmac "" "order_0|pay_1")) = false /\
  authenticateBot config_unset None = CallNext.
Proof.
  destruct (verifyPayment_fails_closed_without_secret demo_hmac config_unset)
    as [H1 [_ [_ H2]]]; [reflexivity |].
  split; [apply H1 | apply H2; reflexivity].
Defined.

(** ** Webhook *)

(** C8: whatever the store and the gateway reply, the webhook handler always
    answers, never hands an error on, and its status differs from 200 exactly
    when the signature header is missing or the signature is invalid. *)
Theorem webhook_non200_only_on_signature_failure :
  forall hmac JSON_parse parseInt config W (h : Handler W) w rawBody signature,
  exists w' r,
    run h w (webhook hmac JSON_parse parseInt config rawBody signature)
      = (w', inr (Responded r)) /\
    (status_code r <> 200%nat <->
     truthy signature = false \/
     verifyRazorpayWebhook hmac config rawBody signature = false).
Proof.
  intros hmac JSON_parse parseInt config W h w rawBody signature.
  unfold webhook.
  destruct (truthy signature) eqn:Ht; cbn [negb].
  2:{ exists w, (mkResponse 400 (ErrorBody "Missing Razorpay signature")).
      split; [reflexivity |]. simpl. split; [auto | discriminate]. }
  destruct (verifyRazorpayWebhook hmac config rawBody signature) eqn:Hv;
    cbn [negb].
  2:{ exists w, (mkResponse 400 (ErrorBody "Invalid webhook signature")).
      split; [reflexivity |]. simpl. split; [auto | discriminate]. }
  match goal with
  | |- context [try_catch ?p _] =>
      destruct (try_catch_total _ h _ p (Responded (mkResponse 200 (StatusBody "ok")))
                  (Responded (mkResponse 200 (StatusBody "error"))) w)
        as [w' [E | E]]
  end.
  - repeat (apply returns_only_bind; intros).
    destruct (is_payment_captured _); [| auto with procs].
    repeat (apply returns_only_bind; intros).
    match goal with |- returns_only _ _ (match ?f with _ => _ end) => destruct f end;
      [| auto with procs].
    repeat (apply returns_only_bind; intros). auto with procs.
  - exists w', (mkResponse 200 (StatusBody "ok")). split; [exact E |].
    simpl. split; [congruence | intros [? | ?]; discriminate].
  - exists w', (mkResponse 200 (StatusBody "error")). split; [exact E |].
    simpl. split; [congruence | intros [? | ?]; discriminate].
Qed.

(** ** The store *)

Lemma filter_map_same : forall (A : Type) (p : A -> bool) (f : A -> A) l,
  (forall x, p (f x) = p x) ->
  filter p (map f l) = map f (filter p l).
Proof.
  intros A p f l Hp. induction l as [| x l IH]; simpl; [reflexivity |].
  rewrite Hp. destruct (p x); simpl; rewrite IH; reflexivity.
Qed.

Lemma filter_andb : forall (A : Type) (p q : A -> bool) l,
  filter (fun x => p x && q x) l = filter q (filter p l).
Proof.
  intros A p q l. induction l as [| x l IH]; simpl; [reflexivity |].
  destruct (p x); simpl; [destruct (q x) |]; rewrite IH; reflexivity.
Qed.

Lemma filter_nil_map_id : forall (A : Type) (p : A -> bool) (f : A -> A) l,
  filter p l = [] -> map (fun x => if p x then f x else x) l = l.
Proof.
  intros A p f l. induction l as [| x l IH]; simpl; [reflexivity |].
  destruct (p x); [discriminate |]. intros H. rewrite IH; auto.
Qed.

Lemma existsb_false_filter : forall (A : Type) (p : A -> bool) l,
  existsb p l = false -> filter p l = [].
Proof.
  intros A p l. induction l as [| x l IH]; simpl; [reflexivity |].
  destruct (p x); simpl; [discriminate | exact IH].
Qed.

Lemma update_row_phone : forall id gte n p x,
  phone_is p (update_row id gte n x) = phone_is p x.
Proof.
  intros. unfold update_row. destruct (update_filter id gte x); reflexivity.
Qed.

Lemma update_row_id : forall id gte n i x,
  id_is i (update_row id gte n x) = id_is i x.
Proof.
  intros. unfold update_row. destruct (update_filter id gte x); reflexivity.
Qed.

Lemma update_filter_rows : forall w u gte,
  has_user w u ->
  filter (update_filter (user_id u) gte) (users w) =
  if update_filter (user_id u) gte u then [u] else [].
Proof.
  intros w u gte [_ Hid]. unfold update_filter at 1.
  rewrite filter_andb, Hid. simpl.
  unfold update_filter, id_is. rewrite Nat.eqb_refl. simpl.
  destruct gte as [m |]; [destruct (m <=? credits u)%Z |]; reflexivity.
Qed.

(** An update that passes its filter rewrites the one row and replies
    with it. *)
Lemma update_hit : forall w u gte n,
  has_user w u ->
  update_filter (user_id u) gte u = true ->
  world_handler _ (UpdateUserCredits (user_id u) (Num n) gte) w =
    (set_users w (map (update_row (user_id u) gte n) (users w)),
     sb_ok (set_credits n u)) /\
  has_user (set_users w (map (update_row (user_id u) gte n) (users w)))
    (set_credits n u).
Proof.
  intros w u gte n Hu Hf. pose proof Hu as [Hp Hi]. split.
  - simpl. rewrite (update_filter_rows w u gte Hu), Hf. reflexivity.
  - unfold has_user. simpl.
    rewrite !filter_map_same
      by (intros; first [apply update_row_phone | apply update_row_id]).
    rewrite Hp, Hi. simpl. unfold update_row. rewrite Hf. auto.
Qed.

(** An update whose filter rejects the row changes nothing and replies with
    an error. *)
Lemma update_miss : forall w u gte n,
  has_user w u ->
  update_filter (user_id u) gte u = false ->
  world_handler _ (UpdateUserCredits (user_id u) (Num n) gte) w =
    (w, sb_err "PGRST116").
Proof.
  intros w u gte n Hu Hf. simpl.
  pose proof (update_filter_rows w u gte Hu) as Hr. rewrite Hf in Hr.
  rewrite Hr. simpl. unfold update_row.
  rewrite (filter_nil_map_id _ _ (set_credits n)) by exact Hr.
  destruct w; reflexivity.
Qed.

Lemma select_by_phone : forall w u,
  has_user w u ->
  world_handler _ (SelectUserByPhone (phone_number u)) w = (w, sb_ok u).
Proof. intros w u [Hp _]. simpl. rewrite Hp. reflexivity. Qed.

Lemma select_by_id : forall w u,
  has_user w u ->
  world_handler _ (SelectUserById (user_id u)) w = (w, sb_ok u).
Proof. intros w u [_ Hi]. simpl. rewrite Hi. reflexivity. Qed.

(** ** getOrCreateUser *)

(** C7: on a phone number without a user, [getOrCreateUser] returns a user
    with 3 credits and appends exactly one starter transaction; a second call
    returns the same user and leaves the world, hence the transaction log,
    unchanged. *)
Theorem getOrCreateUser_new_user_bonus_once :
  forall w phone,
  existsb (phone_is phone) (users w) = false ->
  exists u w1,
    run world_handler w (getOrCreateUser phone) = (w1, inr u) /\
    phone_number u = phone /\
    credits u = 3%Z /\
    users w1 = users w ++ [u] /\
    credit_transactions w1 = credit_transactions w ++ [starter_transaction u] /\
    run world_handler w1 (getOrCreateUser phone) = (w1, inr u).
Proof.
  intros w phone Hnew.
  pose proof (existsb_false_filter _ _ _ Hnew) as Hnone.
  exists (mkUser (next_user_id w) phone 3). eexists.
  split.
  { unfold getOrCreateUser. simpl. rewrite Hnone. simpl. rewrite Hnew. simpl.
    reflexivity. }
  repeat split.
  unfold getOrCreateUser. simpl.
  assert (Hp : phone_is phone (mkUser (next_user_id w) phone 3) = true)
    by (unfold phone_is; simpl; apply String.eqb_refl).
  rewrite filter_app, Hnone. simpl. rewrite !Hp. reflexivity.
Qed.

Lemma getOrCreateUser_new_user_bonus_once_witness :
  exists u w1,
    run world_handler world_empty (getOrCreateUser "+919999999999") = (w1, inr u) /\
    credits u = 3%Z /\
    credit_transactions w1 = [starter_transaction u].
Proof.
  destruct (getOrCreateUser_new_user_bonus_once world_empty "+919999999999")
    as [u [w1 [H1 [_ [H2 [_ [H3 _]]]]]]]; [reflexivity |].
  exists u, w1. repeat split; assumption.
Defined.

(** C6 (as stated) fails: two calls race on an unknown number; the one whose
    insert hits the unique constraint ends with the error, not with the row
    the other call created. *)
Lemma getOrCreateUser_duplicate_counterexample :
  interleave world_handler world_empty
    [getOrCreateUser "+919999999999"; getOrCreateUser "+919999999999"]
    [0; 1; 0; 1; 0]%nat =
  (mkWorld [mkUser 1 "+919999999999" 3]
     [starter_transaction (mkUser 1 "+919999999999" 3)] [] [] [] 2,
   [Ret (mkUser 1 "+919999999999" 3); Throw "Failed to create user"]).
Proof. reflexivity. Qed.

(** C6 (as amended): a call that found no user and whose insert then meets a
    row created meanwhile throws [Failed to create user]; it neither
    re-fetches nor changes the store. *)
Theorem getOrCreateUser_duplicate_throws :
  forall w0 w1 phone,
  existsb (phone_is phone) (users w0) = false ->
  existsb (phone_is phone) (users w1) = true ->
  exists t,
    step world_handler w0 (getOrCreateUser phone) = (w0, t) /\
    step world_handler w1 t = (w1, Throw "Failed to create user").
Proof.
  intros w0 w1 phone H0 H1.
  pose proof (existsb_false_filter _ _ _ H0) as Hnone.
  eexists. split.
  - unfold getOrCreateUser. simpl. rewrite Hnone. simpl. reflexivity.
  - simpl. rewrite H1. reflexivity.
Qed.

Lemma getOrCreateUser_duplicate_throws_witness :
  exists t,
    step world_handler world_empty (getOrCreateUser "+919999999999")
      = (world_empty, t) /\
    step world_handler (mkWorld [mkUser 1 "+919999999999" 3] [] [] [] [] 2) t
      = (mkWorld [mkUser 1 "+919999999999" 3] [] [] [] [] 2,
         Throw "Failed to create user").
Proof.
  apply (getOrCreateUser_duplicate_throws world_empty
           (mkWorld [mkUser 1 "+919999999999" 3] [] [] [] [] 2)
           "+919999999999"); reflexivity.
Defined.

(** ** addCredits *)

Lemma run_await : forall (W X : Type) (h : Handler W) (op : Op X) w,
  run h w (await op) = (let (w', x) := h _ op w in (w', inr x)).
Proof. intros. simpl. destruct (h X op w); reflexivity. Qed.

Lemma run_getOrCreateUser_existing : forall w u,
  has_user w u ->
  run world_handler w (getOrCreateUser (phone_number u)) = (w, inr u).
Proof.
  intros w u Hu. unfold getOrCreateUser.
  rewrite run_bind, run_await, select_by_phone by assumption. reflexivity.
Qed.

Lemma run_addCredits : forall w u n source ref,
  has_user w u ->
  run world_handler w (addCredits (phone_number u) (Num n) source ref) =
    (credited w u n (mkTx (user_id u) credit (Num n) source ref),
     inr (set_credits (credits u + n) u)) /\
  has_user (credited w u n (mkTx (user_id u) credit (Num n) source ref))
    (set_credits (credits u + n) u).
Proof.
  intros w u n source ref Hu.
  assert (Hf : update_filter (user_id u) None u = true).
  { unfold update_filter, id_is. rewrite Nat.eqb_refl. reflexivity. }
  destruct (update_hit w u None (credits u + n) Hu Hf) as [Hupd Hu'].
  split.
  - unfold addCredits.
    rewrite run_bind, run_getOrCreateUser_existing by assumption.
    cbn [js_add]. rewrite run_bind, run_await, Hupd. reflexivity.
  - destruct Hu' as [Hp Hi]. split; [exact Hp | exact Hi].
Qed.

(** ** Rounding *)


Lemma Math_round_inject_Z : forall z : Z, Math_round (inject_Z z) = z.
Proof.
  intros z. unfold Math_round, Qfloor, Qplus, inject_Z. simpl.
  symmetry. apply (Z.div_unique _ _ z 1); lia.
Qed.

(** ** Order creation and payment verification *)

Lemma truthy_nonempty : forall s, s <> "" -> truthy (Some s) = true.
Proof.
  intros s Hs. simpl. destruct (String.eqb_spec s ""); [contradiction | reflexivity].
Qed.

Lemma run_createOrder : forall config w now pkgId phone P amount,
  razorpay config = true ->
  pkgId <> "" -> phone <> "" ->
  filter (package_is pkgId) (packages w) = [P] ->
  Math_round_double (package_price P * 100)%float = Num amount ->
  run world_handler w (createOrder config now (Some pkgId) (Some phone)) =
    (order_placed w (placed_order w now pkgId phone P amount),
     inr (sendSuccess "Order created successfully"
            (OrderCreated (next_order_id w) amount "INR" P))).
Proof.
  intros config w now pkgId phone P amount Hr Hpk Hph HP Hamount.
  unfold createOrder. rewrite run_try_catch.
  rewrite (truthy_nonempty _ Hpk), (truthy_nonempty _ Hph). cbn [negb orb].
  rewrite run_bind, run_await. cbn [world_handler template].
  rewrite HP. cbn [single sb_ok data error].
  unfold createRazorpayOrder. rewrite Hr, Hamount. cbn [negb Math_round_num].
  rewrite Math_round_inject_Z.
  cbn -[string_of_nat string_of_Z]. reflexivity.
Qed.

Lemma run_verifyPayment_valid : forall hmac config w u P orderId payId pkgId secret,
  razorpay_keySecret config = Some secret ->
  secret <> "" ->
  orderId <> "" -> payId <> "" -> pkgId <> "" -> phone_number u <> "" ->
  hmac secret (orderId ++ "|" ++ payId)%string <> "" ->
  has_user w u ->
  filter (package_is pkgId) (packages w) = [P] ->
  let w1 := payment_logged w
              (mkPayment (user_id u) (package_price P) "razorpay" (Some orderId)
                 (Some payId) "success" (Some pkgId)) in
  let w2 := credited w1 u (package_credits P)
              (mkTx (user_id u) credit (Num (package_credits P)) "payment"
                 (Some payId)) in
  run world_handler w
    (verifyPayment hmac config
       (mkVerifyRequest (Some orderId) (Some payId)
          (Some (hmac secret (orderId ++ "|" ++ payId)%string))
          (Some (phone_number u)) (Some pkgId))) =
    (w2,
     inr (sendSuccess "Payment verified and credits added successfully"
            (PaymentVerified (Some payId) (Some orderId) (package_credits P)
               (credits u + package_credits P)))) /\
  has_user w2 (set_credits (credits u + package_credits P) u).
Proof.
  intros hmac config w u P orderId payId pkgId secret Hsec Hne Ho Hp Hk Hph Hh
    Hu HP w1 w2.
  assert (Hu1 : has_user w1 u) by exact Hu.
  destruct (run_addCredits w1 u (package_credits P) "payment" (Some payId) Hu1)
    as [Hadd Hu2].
  split; [| exact Hu2].
  unfold verifyPayment. rewrite run_try_catch.
  cbn [razorpay_order_id razorpay_payment_id razorpay_signature
       req_phone_number req_package_id].
  rewrite (truthy_nonempty _ Ho), (truthy_nonempty _ Hp), (truthy_nonempty _ Hk),
    (truthy_nonempty _ Hph), (truthy_nonempty _ Hh).
  cbn [negb orb].
  assert (Hv : verifyRazorpayPayment hmac config (Some orderId) (Some payId)
                 (Some (hmac secret (orderId ++ "|" ++ payId)%string)) = true).
  { unfold verifyRazorpayPayment. rewrite Hsec, (truthy_nonempty _ Hne).
    cbn [negb template].
    apply safe_compare_true_iff; [apply truthy_nonempty; exact Hh | reflexivity]. }
  rewrite Hv. cbn [negb].
  rewrite run_bind, run_await. cbn [template].
  rewrite select_by_phone by exact Hu. cbn [sb_ok data error].
  rewrite run_bind, run_await. cbn [world_handler]. rewrite HP.
  cbn [single sb_ok data error].
  rewrite run_bind, run_await. cbn [world_handler].
  rewrite run_bind.
  change (mkWorld (users w) (credit_transactions w) (packages w)
            (payments w ++ [_]) (orders w) (next_user_id w)) with w1.
  rewrite Hadd. reflexivity.
Qed.




(** ** Webhook crediting *)

Lemma run_webhook_captured :
  forall hmac JSON_parse parseInt config w u o n rawBody secret payId,
  razorpay config = true ->
  razorpay_webhookSecret config = Some secret ->
  secret <> "" ->
  hmac secret rawBody <> "" ->
  JSON_parse rawBody = inr (captured_event payId (order_id o)) ->
  find_order (order_id o) (orders w) = Some o ->
  note_phone_number (order_notes o) = phone_number u ->
  parseInt (note_credits (order_notes o)) = Num n ->
  has_user w u ->
  let tx := mkTx (user_id u) credit (Num n) "webhook_payment" (Some payId) in
  run world_handler w
    (webhook hmac JSON_parse parseInt config (RawBody rawBody)
       (Some (hmac secret rawBody))) =
    (credited w u n tx, inr (Responded (mkResponse 200 (StatusBody "ok")))) /\
  has_user (credited w u n tx) (set_credits (credits u + n) u).
Proof.
  intros hmac JSON_parse parseInt config w u o n rawBody secret payId
    Hr Hsec Hne Hh Hparse Hfind Hphone Hint Hu tx.
  destruct (run_addCredits w u n "webhook_payment" (Some payId) Hu)
    as [Hadd Hu'].
  split; [| exact Hu'].
  unfold webhook. rewrite run_try_catch.
  rewrite (truthy_nonempty _ Hh). cbn [negb].
  assert (Hv : verifyRazorpayWebhook hmac config (RawBody rawBody)
                 (Some (hmac secret rawBody)) = true).
  { unfold verifyRazorpayWebhook. rewrite Hsec, (truthy_nonempty _ Hne).
    cbn [negb template].
    apply safe_compare_true_iff; [apply truthy_nonempty; exact Hh | reflexivity]. }
  rewrite Hv. cbn [negb body_toString lift bind]. rewrite Hparse.
  unfold captured_event.
  cbn [bind lift prop assoc_field String.eqb Ascii.eqb Bool.eqb
       is_payment_captured]. rewrite Hr.
  cbn [negb bind await_promise run world_handler].
  rewrite Hfind.
  cbn [bind lift prop assoc_field String.eqb Ascii.eqb Bool.eqb reference_of].
  rewrite Hphone, Hint, run_bind, Hadd. reflexivity.
Qed.

(** The handler on the bytes of a delivery, with the gateway client
    configured: delivering the same verified [payment.captured] event twice
    runs [addCredits] twice. *)
Lemma webhook_replay_credits_twice :
  forall hmac JSON_parse parseInt config w u o n rawBody secret payId,
  razorpay config = true ->
  razorpay_webhookSecret config = Some secret ->
  secret <> "" ->
  hmac secret rawBody <> "" ->
  JSON_parse rawBody = inr (captured_event payId (order_id o)) ->
  find_order (order_id o) (orders w) = Some o ->
  note_phone_number (order_notes o) = phone_number u ->
  parseInt (note_credits (order_notes o)) = Num n ->
  has_user w u ->
  exists w1 w2,
    run world_handler w
      (webhook hmac JSON_parse parseInt config (RawBody rawBody)
         (Some (hmac secret rawBody))) =
      (w1, inr (Responded (mkResponse 200 (StatusBody "ok")))) /\
    run world_handler w1
      (webhook hmac JSON_parse parseInt config (RawBody rawBody)
         (Some (hmac secret rawBody))) =
      (w2, inr (Responded (mkResponse 200 (StatusBody "ok")))) /\
    credit_transactions w2 =
      credit_transactions w
      ++ [mkTx (user_id u) credit (Num n) "webhook_payment" (Some payId);
          mkTx (user_id u) credit (Num n) "webhook_payment" (Some payId)] /\
    has_user w2 (set_credits (credits u + n + n) u).
Proof.
  intros hmac JSON_parse parseInt config w u o n rawBody secret payId
    Hr Hsec Hne Hh Hparse Hfind Hphone Hint Hu.
  destruct (run_webhook_captured hmac JSON_parse parseInt config w u o n rawBody
              secret payId Hr Hsec Hne Hh Hparse Hfind Hphone Hint Hu)
    as [Hrun1 Hu1].
  destruct (run_webhook_captured hmac JSON_parse parseInt config
              (credited w u n
                 (mkTx (user_id u) credit (Num n) "webhook_payment" (Some payId)))
              (set_credits (credits u + n) u) o n rawBody
              secret payId Hr Hsec Hne Hh Hparse Hfind Hphone Hint Hu1)
    as [Hrun2 Hu2].
  eexists. eexists.
  split; [exact Hrun1 |].
  split; [exact Hrun2 |].
  split; [| exact Hu2].
  simpl. rewrite <- app_assoc. reflexivity.
Qed.

Lemma webhook_replay_credits_twice_witness :
  exists w1 w2,
    run world_handler world_paid
      (webhook demo_hmac demo_JSON_parse demo_parseInt config_example (RawBody "{}")
         (Some (demo_hmac "whsec_test" "{}"))) =
      (w1, inr (Responded (mkResponse 200 (StatusBody "ok")))) /\
    run world_handler w1
      (webhook demo_hmac demo_JSON_parse demo_parseInt config_example (RawBody "{}")
         (Some (demo_hmac "whsec_test" "{}"))) =
      (w2, inr (Responded (mkResponse 200 (StatusBody "ok")))) /\
    has_user w2 (mkUser 7 "+911234567890" (3 + 50 + 50)).
Proof.
  destruct (webhook_replay_credits_twice demo_hmac demo_JSON_parse demo_parseInt
              config_example world_paid (mkUser 7 "+911234567890" 3) order_0 50
              "{}" "whsec_test" "pay_1")
    as [w1 [w2 [H1 [H2 [_ H3]]]]];
    try reflexivity; try discriminate.
  - split; reflexivity.
  - exists w1, w2. repeat split; try assumption; apply H3.
Defined.

(** The same holds across the two paths when the handler is handed the
    bytes: the verify endpoint and then the webhook, for the one payment
    [pay_1], credit the package twice. *)
Lemma verify_then_webhook_credits_twice_example :
  exists w1 w2,
    run world_handler world_paid
      (verifyPayment demo_hmac config_example
         (mkVerifyRequest (Some "order_0") (Some "pay_1")
            (Some (demo_hmac "rzp_test_secret" "order_0|pay_1"))
            (Some "+911234567890") (Some "pkg_50"))) =
      (w1, inr (sendSuccess "Payment verified and credits added successfully"
                  (PaymentVerified (Some "pay_1") (Some "order_0") 50 53))) /\
    run world_handler w1
      (webhook demo_hmac demo_JSON_parse demo_parseInt config_example (RawBody "{}")
         (Some (demo_hmac "whsec_test" "{}"))) =
      (w2, inr (Responded (mkResponse 200 (StatusBody "ok")))) /\
    users w2 = [mkUser 7 "+911234567890" 103] /\
    map tx_reference_id (credit_transactions w2) = [Some "pay_1"; Some "pay_1"].
Proof.
  eexists. eexists. split; [reflexivity |]. repeat split.
Qed.

(** Behind [express.json()] the handler's [req.body] is a parsed object,
    which the hash refuses: whatever the signature, the delivery is answered
    400 and no store or gateway operation is awaited. *)
Lemma webhook_parsed_body_answers_400 :
  forall hmac JSON_parse parseInt config fields signature,
  exists message,
    webhook hmac JSON_parse parseInt config (ParsedBody (JObj fields)) signature =
    Ret (Responded (mkResponse 400 (ErrorBody message))).
Proof.
  intros hmac JSON_parse parseInt config fields signature.
  unfold webhook, verifyRazorpayWebhook.
  destruct (truthy signature); cbn [negb try_catch].
  - destruct (razorpay_webhookSecret config) as [secret |]; cbn [truthy].
    + destruct (negb (secret =? "")%string); cbn [negb hmac_input try_catch];
        eexists; reflexivity.
    + cbn [negb try_catch]. eexists; reflexivity.
  - eexists; reflexivity.
Qed.

Lemma set_credits_twice : forall a b u,
  set_credits a (set_credits b u) = set_credits a u.
Proof. reflexivity. Qed.

(** C4: crediting is not bounded to once per gateway payment id.  The verify
    endpoint looks no payment up before it credits: the same correctly
    signed request for the payment [payId], sent [k] times, is answered with
    success [k] times, and at the end the user holds [k] times the package's
    credits more, with [k] payment rows and [k] credit transactions that all
    carry [payId]. *)
Theorem verifyPayment_credits_on_every_replay :
  forall hmac config P orderId payId pkgId secret,
  razorpay_keySecret config = Some secret ->
  secret <> "" ->
  orderId <> "" -> payId <> "" -> pkgId <> "" ->
  hmac secret (orderId ++ "|" ++ payId)%string <> "" ->
  forall k w u,
  phone_number u <> "" ->
  has_user w u ->
  filter (package_is pkgId) (packages w) = [P] ->
  snd (replay
         (verifyPayment hmac config
            (signed_request hmac secret orderId payId (phone_number u) pkgId))
         k w) =
    map (fun i =>
           inr (sendSuccess "Payment verified and credits added successfully"
                  (PaymentVerified (Some payId) (Some orderId)
                     (package_credits P)
                     (credits u + Z.of_nat i * package_credits P))))
        (seq 1 k) /\
  has_user
    (fst (replay
            (verifyPayment hmac config
               (signed_request hmac secret orderId payId (phone_number u) pkgId))
            k w))
    (set_credits (credits u + Z.of_nat k * package_credits P) u) /\
  payments
    (fst (replay
            (verifyPayment hmac config
               (signed_request hmac secret orderId payId (phone_number u) pkgId))
            k w)) =
    payments w
    ++ repeat (mkPayment (user_id u) (package_price P) "razorpay"
                 (Some orderId) (Some payId) "success" (Some pkgId)) k /\
  credit_transactions
    (fst (replay
            (verifyPayment hmac config
               (signed_request hmac secret orderId payId (phone_number u) pkgId))
            k w)) =
    credit_transactions w
    ++ repeat (mkTx (user_id u) credit (Num (package_credits P)) "payment"
                 (Some payId)) k.
Proof.
  intros hmac config P orderId payId pkgId secret Hsec Hne Ho Hp Hk Hh k.
  induction k as [| k IH]; intros w u Hph Hu HP.
  - cbn [replay fst snd seq map repeat].
    rewrite !app_nil_r, Z.mul_0_l, Z.add_0_r.
    repeat split; try apply Hu.
    + destruct u; exact (proj1 Hu).
    + destruct u; exact (proj2 Hu).
  - destruct (run_verifyPayment_valid hmac config w u P orderId payId pkgId
                secret Hsec Hne Ho Hp Hk Hph Hh Hu HP) as [Hrun Hu1].
    cbv zeta in Hrun, Hu1.
    match type of Hu1 with
    | has_user ?w1 ?u1 =>
        specialize (IH w1 u1 Hph Hu1 HP);
        cbn [phone_number user_id credits set_credits] in IH;
        destruct IH as [IHr [IHu [IHp IHt]]]
    end.
    unfold signed_request in *.
    cbn [replay]. rewrite Hrun.
    match goal with
    | |- context [replay ?p k ?w1] => destruct (replay p k w1) as [w2 rs]
    end.
    cbn [fst snd] in *.
    split; [| split; [| split]].
    + cbn [seq map]. f_equal.
      * replace (credits u + Z.of_nat 1 * package_credits P)%Z
          with (credits u + package_credits P)%Z by lia.
        reflexivity.
      * rewrite IHr, <- (seq_shift k 1), map_map. apply map_ext.
        intros i.
        replace (credits u + Z.of_nat (S i) * package_credits P)%Z
          with (credits u + package_credits P + Z.of_nat i * package_credits P)%Z
          by lia.
        reflexivity.
    + rewrite set_credits_twice in IHu.
      replace (credits u + Z.of_nat (S k) * package_credits P)%Z
        with (credits u + package_credits P + Z.of_nat k * package_credits P)%Z
        by lia.
      exact IHu.
    + rewrite IHp. cbn [payments credited payment_logged repeat].
      rewrite <- app_assoc. reflexivity.
    + rewrite IHt. cbn [credit_transactions credited payment_logged repeat].
      rewrite <- app_assoc. reflexivity.
Qed.

Lemma verifyPayment_credits_on_every_replay_witness :
  snd (replay
         (verifyPayment demo_hmac config_example
            (signed_request demo_hmac "rzp_test_secret" "order_0" "pay_1"
               "+911234567890" "pkg_50")) 2 world_paid) =
    [inr (sendSuccess "Payment verified and credits added successfully"
            (PaymentVerified (Some "pay_1") (Some "order_0") 50 53));
     inr (sendSuccess "Payment verified and credits added successfully"
            (PaymentVerified (Some "pay_1") (Some "order_0") 50 103))] /\
  has_user
    (fst (replay
            (verifyPayment demo_hmac config_example
               (signed_request demo_hmac "rzp_test_secret" "order_0" "pay_1"
                  "+911234567890" "pkg_50")) 2 world_paid))
    (mkUser 7 "+911234567890" 103) /\
  map tx_reference_id
    (credit_transactions
       (fst (replay
               (verifyPayment demo_hmac config_example
                  (signed_request demo_hmac "rzp_test_secret" "order_0" "pay_1"
                     "+911234567890" "pkg_50")) 2 world_paid))) =
    [Some "pay_1"; Some "pay_1"].
Proof.
  destruct (verifyPayment_credits_on_every_replay demo_hmac config_example
              package_50 "order_0" "pay_1" "pkg_50" "rzp_test_secret"
              eq_refl ltac:(discriminate) ltac:(discriminate)
              ltac:(discriminate) ltac:(discriminate) ltac:(discriminate)
              2%nat world_paid (mkUser 7 "+911234567890" 3)
              ltac:(discriminate) (conj eq_refl eq_refl) eq_refl)
    as [H1 [H2 [_ H3]]].
  split; [exact H1 |]. split; [exact H2 |].
  exact (f_equal (map tx_reference_id) H3).
Defined.

(** ** Racing deductions *)

Section Race.

Variables (phone : string) (id : nat).


Lemma step_at_start : forall w spent,
  has_user w (race_row phone id spent) ->
  step world_handler w (deductCredit phone) = (w, deduct_check (race_row phone id spent)).
Proof.
  intros w spent Hu.
  pose proof (select_by_phone w _ Hu) as Hs. cbn [race_row phone_number] in Hs.
  unfold deductCredit, getOrCreateUser. cbn [bind await step].
  rewrite Hs. reflexivity.
Qed.

Lemma step_at_update_hit : forall w,
  has_user w (race_row phone id false) ->
  exists w',
    step world_handler w (deduct_update (race_row phone id false)) =
      (w', deduct_commit (race_row phone id false) (race_row phone id true)) /\
    has_user w' (race_row phone id true).
Proof.
  intros w Hu.
  destruct (update_hit w (race_row phone id false) (Some 1%Z) 0 Hu) as [Hw Hu'].
  { unfold update_filter, id_is. cbn. rewrite Nat.eqb_refl. reflexivity. }
  eexists. split; [| exact Hu'].
  unfold deduct_update. cbn [bind await step].
  cbn [race_row user_id credits balance_of Z.sub Z.add Z.opp Z.pos_sub] in Hw |- *.
  rewrite Hw. reflexivity.
Qed.

Lemma step_at_update_miss : forall w,
  has_user w (race_row phone id true) ->
  step world_handler w (deduct_update (race_row phone id false)) = (w, deduct_refetch (race_row phone id false)).
Proof.
  intros w Hu.
  pose proof (update_miss w (race_row phone id true) (Some 1%Z) 0 Hu) as Hw.
  unfold deduct_update. cbn [bind await step].
  cbn [race_row user_id credits balance_of Z.sub Z.add Z.opp Z.pos_sub] in Hw |- *.
  rewrite Hw; [reflexivity |].
  unfold update_filter, id_is. cbn. rewrite Nat.eqb_refl. reflexivity.
Qed.

Lemma step_at_refetch : forall w,
  has_user w (race_row phone id true) ->
  step world_handler w (deduct_refetch (race_row phone id false)) = (w, Ret (mkDeduct false 0)).
Proof.
  intros w Hu.
  pose proof (select_by_id w _ Hu) as Hs. cbn [race_row user_id] in Hs.
  unfold deduct_refetch. cbn [bind await step race_row user_id].
  rewrite Hs. reflexivity.
Qed.

Lemma step_at_commit : forall w spent,
  has_user w (race_row phone id spent) ->
  exists w',
    step world_handler w (deduct_commit (race_row phone id false) (race_row phone id true)) =
      (w', Ret (mkDeduct true 0)) /\
    has_user w' (race_row phone id spent).
Proof.
  intros w spent Hu. eexists. split; [reflexivity | exact Hu].
Qed.

(** Each step of a request is the step of its stage. *)
Lemma stage_step_sim : forall w spent s,
  has_user w (race_row phone id spent) ->
  spent = true \/ before_write s = true ->
  exists w',
    step world_handler w (stage_proc phone id s) =
      (w', stage_proc phone id (snd (stage_step spent s))) /\
    has_user w' (race_row phone id (fst (stage_step spent s))).
Proof.
  intros w spent s Hu Hok.
  destruct s; cbn [stage_proc stage_step].
  - exists w. rewrite (step_at_start w spent Hu).
    destruct spent; split; auto.
  - destruct spent; cbn [fst snd].
    + exists w. split; [apply step_at_update_miss; exact Hu | exact Hu].
    + apply step_at_update_hit; exact Hu.
  - apply step_at_commit; exact Hu.
  - destruct Hok as [-> | Hb]; [| discriminate].
    exists w. split; [apply step_at_refetch; exact Hu | exact Hu].
  - exists w. split; [reflexivity | exact Hu].
  - exists w. split; [reflexivity | exact Hu].
Qed.

Lemma step_nth_beyond : forall (w : World) (t0 t1 : Proc DeductResult) i,
  step_nth world_handler w [t0; t1] (S (S i)) = (w, [t0; t1]).
Proof. intros. destruct i; reflexivity. Qed.

Lemma race_inv_step0 : forall spent s0 s1,
  race_inv spent s0 s1 = true ->
  race_inv (fst (stage_step spent s0)) (snd (stage_step spent s0)) s1 = true.
Proof. intros [|] [] []; simpl; intros H; auto; discriminate. Qed.

Lemma race_inv_step1 : forall spent s0 s1,
  race_inv spent s0 s1 = true ->
  race_inv (fst (stage_step spent s1)) s0 (snd (stage_step spent s1)) = true.
Proof. intros [|] [] []; simpl; intros H; auto; discriminate. Qed.

Lemma race_inv_may_step : forall spent s0 s1,
  race_inv spent s0 s1 = true ->
  (spent = true \/ before_write s0 = true) /\
  (spent = true \/ before_write s1 = true).
Proof.
  intros [|] s0 s1 H; [auto |]. simpl in H.
  apply andb_true_iff in H. destruct H; auto.
Qed.

Lemma rank_step : forall spent s,
  Nat.min 3 (S (rank s)) <= rank (snd (stage_step spent s)).
Proof. intros [|] []; simpl; lia. Qed.

(** The invariant of the race, along every schedule. *)
Lemma race_interleave : forall sched w spent s0 s1,
  has_user w (race_row phone id spent) ->
  race_inv spent s0 s1 = true ->
  exists w' spent' s0' s1',
    interleave world_handler w [stage_proc phone id s0; stage_proc phone id s1]
      sched = (w', [stage_proc phone id s0'; stage_proc phone id s1']) /\
    has_user w' (race_row phone id spent') /\
    race_inv spent' s0' s1' = true /\
    Nat.min 3 (rank s0 + picks 0 sched) <= rank s0' /\
    Nat.min 3 (rank s1 + picks 1 sched) <= rank s1'.
Proof.
  induction sched as [| i sched IH]; intros w spent s0 s1 Hu Hinv.
  - exists w, spent, s0, s1. unfold picks. cbn [count_occ interleave].
    split; [reflexivity |]. split; [exact Hu |]. split; [exact Hinv |].
    split; lia.
  - destruct (race_inv_may_step _ _ _ Hinv) as [H0 H1].
    destruct i as [| [| i]].
    + destruct (stage_step_sim w spent s0 Hu H0) as [w1 [Hs Hu1]].
      destruct (IH w1 _ _ s1 Hu1 (race_inv_step0 _ _ _ Hinv))
        as [w' [spent' [s0' [s1' [Hrun [Hu' [Hinv' [Hr0 Hr1]]]]]]]].
      exists w', spent', s0', s1'.
      cbn [interleave step_nth]. rewrite Hs, Hrun.
      pose proof (rank_step spent s0). unfold picks in *. cbn [count_occ].
      destruct (Nat.eq_dec 0 0); [| congruence].
      destruct (Nat.eq_dec 0 1); [discriminate |].
      split; [reflexivity |]. split; [exact Hu' |]. split; [exact Hinv' |].
      split; lia.
    + destruct (stage_step_sim w spent s1 Hu H1) as [w1 [Hs Hu1]].
      destruct (IH w1 _ s0 _ Hu1 (race_inv_step1 _ _ _ Hinv))
        as [w' [spent' [s0' [s1' [Hrun [Hu' [Hinv' [Hr0 Hr1]]]]]]]].
      exists w', spent', s0', s1'.
      cbn [interleave step_nth]. rewrite Hs, Hrun.
      pose proof (rank_step spent s1). unfold picks in *. cbn [count_occ].
      destruct (Nat.eq_dec 1 1); [| congruence].
      destruct (Nat.eq_dec 1 0); [discriminate |].
      split; [reflexivity |]. split; [exact Hu' |]. split; [exact Hinv' |].
      split; lia.
    + destruct (IH w spent s0 s1 Hu Hinv)
        as [w' [spent' [s0' [s1' [Hrun [Hu' [Hinv' [Hr0 Hr1]]]]]]]].
      exists w', spent', s0', s1'.
      cbn [interleave]. rewrite step_nth_beyond, Hrun.
      unfold picks in *. cbn [count_occ].
      destruct (Nat.eq_dec (S (S i)) 0); [discriminate |].
      destruct (Nat.eq_dec (S (S i)) 1); [discriminate |].
      split; [reflexivity |]. split; [exact Hu' |]. split; [exact Hinv' |].
      split; assumption.
Qed.

Lemma finished_stage : forall s,
  finished (stage_proc phone id s) = Nat.eqb (rank s) 3.
Proof. intros []; reflexivity. Qed.

End Race.

(** C2: with a balance of exactly 1 and two concurrent [deductCredit] calls,
    along every schedule the two requests, once both have returned, are one
    [{success: true, remainingCredits: 0}] and one
    [{success: false, remainingCredits: 0}], the balance being 0; and both
    have returned as soon as each was scheduled three times. *)
Theorem deductCredit_race_exactly_one_winner :
  forall w id phone sched,
  has_user w (mkUser id phone 1) ->
  exists w' t0 t1,
    interleave world_handler w [deductCredit phone; deductCredit phone] sched
      = (w', [t0; t1]) /\
    (both_finished [t0; t1] = true ->
     has_user w' (mkUser id phone 0) /\
     ((t0 = Ret (mkDeduct true 0) /\ t1 = Ret (mkDeduct false 0)) \/
      (t0 = Ret (mkDeduct false 0) /\ t1 = Ret (mkDeduct true 0)))) /\
    (3 <= picks 0 sched -> 3 <= picks 1 sched ->
     both_finished [t0; t1] = true).
Proof.
  intros w id phone sched Hu.
  destruct (race_interleave phone id sched w false AtStart AtStart Hu eq_refl)
    as [w' [spent' [s0' [s1' [Hrun [Hu' [Hinv [Hr0 Hr1]]]]]]]].
  exists w', (stage_proc phone id s0'), (stage_proc phone id s1').
  split; [exact Hrun |]. unfold both_finished. cbn [forallb].
  rewrite !finished_stage. split.
  - intros Hfin.
    destruct spent', s0', s1'; try discriminate Hinv; try discriminate Hfin;
      (split; [exact Hu' | auto]).
  - intros H0 H1. cbn [rank] in Hr0, Hr1.
    assert (E0 : rank s0' = 3) by (destruct s0'; cbn [rank] in *; lia).
    assert (E1 : rank s1' = 3) by (destruct s1'; cbn [rank] in *; lia).
    rewrite E0, E1. reflexivity.
Qed.

Lemma deductCredit_race_exactly_one_winner_witness :
  exists w' t0 t1,
    interleave world_handler world_one
      [deductCredit "+911234567890"; deductCredit "+911234567890"]
      [0; 1; 1; 0; 0; 1] = (w', [t0; t1]) /\
    has_user w' (mkUser 7 "+911234567890" 0) /\
    ((t0 = Ret (mkDeduct true 0) /\ t1 = Ret (mkDeduct false 0)) \/
     (t0 = Ret (mkDeduct false 0) /\ t1 = Ret (mkDeduct true 0))).
Proof.
  destruct (deductCredit_race_exactly_one_winner world_one 7 "+911234567890"
              [0; 1; 1; 0; 0; 1])
    as [w' [t0 [t1 [Hrun [Hres Hfin]]]]].
  - split; reflexivity.
  - exists w', t0, t1. split; [exact Hrun |].
    apply Hres. apply Hfin; unfold picks; simpl; lia.
Defined.

(** ** Balances under concurrent deductions *)

Lemma writes_nonneg_bind : forall A B (p : Proc A) (f : A -> Proc B),
  writes_nonneg p -> (forall a, writes_nonneg (f a)) -> writes_nonneg (bind p f).
Proof.
  induction p as [a | e | X op k IH]; intros f Hp Hf; simpl; auto.
  destruct Hp as [Hop Hk]. split; [exact Hop |].
  intros x. apply IH; auto.
Qed.

Lemma writes_nonneg_await : forall X (op : Op X),
  op_writes_nonneg op -> writes_nonneg (await op).
Proof. intros X op H. simpl. split; [exact H | intros; exact I]. Qed.

Lemma writes_nonneg_getOrCreateUser : forall phone,
  writes_nonneg (getOrCreateUser phone).
Proof.
  intros phone. unfold getOrCreateUser.
  apply writes_nonneg_bind; [apply writes_nonneg_await; exact I |].
  intros r.
  assert (Hins : writes_nonneg
            (r' <- await (InsertUser phone 3) ;;
             match error r', data r' with
             | None, Some newUser =>
                 await (InsertTransaction
                          (mkTx (user_id newUser) credit (Num 3) "system" None)) ;;
                 Ret newUser
             | _, _ => Throw "Failed to create user"
             end)).
  { apply writes_nonneg_bind; [apply writes_nonneg_await; simpl; lia |].
    intros r'. destruct (error r'), (data r'); simpl; auto. }
  destruct (data r), (error r); auto; exact I.
Qed.

Lemma writes_nonneg_deductCredit : forall phone,
  writes_nonneg (deductCredit phone).
Proof.
  intros phone. unfold deductCredit.
  apply writes_nonneg_bind; [apply writes_nonneg_getOrCreateUser |].
  intros user. unfold deduct_check.
  destruct (credits user <=? 0)%Z eqn:E; [exact I |].
  apply Z.leb_gt in E. unfold deduct_update.
  apply writes_nonneg_bind; [apply writes_nonneg_await; simpl; lia |].
  intros r.
  assert (Hre : writes_nonneg (deduct_refetch user)).
  { unfold deduct_refetch. simpl. auto. }
  destruct (error r), (data r) as [result |]; auto.
  destruct (credits result <? 0)%Z; auto.
  unfold deduct_commit. simpl. auto.
Qed.

Lemma handler_balances_nonneg : forall X (op : Op X) w,
  op_writes_nonneg op -> balances_nonneg w ->
  balances_nonneg (fst (world_handler _ op w)).
Proof.
  intros X op w Hop Hw. unfold balances_nonneg in *.
  destruct op; simpl in *; auto.
  - destruct (existsb (phone_is phone) (users w)); simpl; auto.
    apply Forall_app. split; [exact Hw |]. constructor; [exact Hop | constructor].
  - destruct c as [n |]; simpl; auto.
    apply Forall_map. eapply Forall_impl; [| exact Hw].
    intros u Hu. unfold update_row.
    destruct (update_filter id gte u); simpl; auto.
  - destruct (od_amount d); simpl; auto.
  - destruct id; simpl; auto. destruct (find_order s (orders w)); simpl; auto.
Qed.

Lemma step_balances_nonneg : forall A (t : Proc A) w,
  writes_nonneg t -> balances_nonneg w ->
  balances_nonneg (fst (step world_handler w t)) /\
  writes_nonneg (snd (step world_handler w t)).
Proof.
  intros A [a | e | X op k] w Ht Hw; simpl; auto.
  destruct Ht as [Hop Hk].
  pose proof (handler_balances_nonneg X op w Hop Hw) as H.
  destruct (world_handler X op w) as [w' x]. simpl in *. auto.
Qed.

Lemma step_nth_balances_nonneg : forall A (ts : list (Proc A)) i w,
  Forall writes_nonneg ts -> balances_nonneg w ->
  balances_nonneg (fst (step_nth world_handler w ts i)) /\
  Forall writes_nonneg (snd (step_nth world_handler w ts i)).
Proof.
  induction ts as [| t ts IH]; intros i w Hts Hw; simpl; auto.
  inversion Hts as [| ? ? Ht Hrest]; subst.
  destruct i as [| j].
  - destruct (step_balances_nonneg A t w Ht Hw) as [H1 H2].
    destruct (step world_handler w t) as [w' t']. simpl in *. auto.
  - destruct (IH j w Hrest Hw) as [H1 H2].
    destruct (step_nth world_handler w ts j) as [w' ts']. simpl in *. auto.
Qed.

Lemma interleave_balances_nonneg :
  forall A sched (ts : list (Proc A)) w,
  Forall writes_nonneg ts -> balances_nonneg w ->
  balances_nonneg (fst (interleave world_handler w ts sched)).
Proof.
  induction sched as [| i sched IH]; intros ts w Hts Hw; simpl; auto.
  destruct (step_nth_balances_nonneg A ts i w Hts Hw) as [H1 H2].
  destruct (step_nth world_handler w ts i) as [w' ts']. simpl in *.
  apply IH; assumption.
Qed.

(** Along every schedule of any number of [deductCredit] requests, for any
    users, no balance becomes negative. *)
Lemma deductCredit_balances_never_negative : forall phones sched w,
  balances_nonneg w ->
  balances_nonneg
    (fst (interleave world_handler w (map deductCredit phones) sched)).
Proof.
  intros phones sched w Hw. apply interleave_balances_nonneg; [| exact Hw].
  apply Forall_map, Forall_forall. intros phone _.
  apply writes_nonneg_deductCredit.
Qed.

(** With the balance exhausted [deductCredit] fails with the current
    balance and leaves the store alone. *)
Lemma deductCredit_exhausted : forall w u,
  has_user w u -> (credits u <= 0)%Z ->
  run world_handler w (deductCredit (phone_number u)) =
    (w, inr (mkDeduct false (credits u))).
Proof.
  intros w u Hu Hc. unfold deductCredit.
  rewrite run_bind, run_getOrCreateUser_existing by exact Hu.
  unfold deduct_check. apply Z.leb_le in Hc. rewrite Hc. reflexivity.
Qed.

(** C1: the count of successes is not bounded by the starting balance.
    From a balance of 2, two requests read 2 and both write 1 under the
    filter [credits >= 1]; a third then takes the balance to 0: three
    deductions succeed. *)
Theorem deductCredit_three_successes_from_two :
  interleave world_handler world_two
    [deductCredit "+911234567890"; deductCredit "+911234567890";
     deductCredit "+911234567890"]
    [0; 1; 0; 1; 0; 1; 2; 2; 2] =
  (mkWorld [mkUser 7 "+911234567890" 0]
     [debit_transaction 7; debit_transaction 7; debit_transaction 7] [] [] [] 8,
   [Ret (mkDeduct true 1); Ret (mkDeduct true 1); Ret (mkDeduct true 0)]).
Proof. reflexivity. Qed.

(** ** The write of deductCredit against the conditional decrement *)

Lemma filter_one_unique : forall (A : Type) (p : A -> bool) l u x,
  filter p l = [u] -> In x l -> p x = true -> x = u.
Proof.
  intros A p l u x Hf Hin Hp.
  assert (Hx : In x (filter p l)) by (apply filter_In; auto).
  rewrite Hf in Hx. destruct Hx as [<- | []]. reflexivity.
Qed.

(** When the row the request has read is still the row the store holds, its
    write is the conditional decrement. *)
Lemma deduct_write_current : forall w u,
  has_user w u ->
  deduct_write u w = spec_conditional_decrement (user_id u) w.
Proof.
  intros w u Hu. pose proof Hu as [_ Hid].
  unfold deduct_write, spec_conditional_decrement. simpl.
  f_equal.
  - f_equal. apply map_ext_in. intros x Hin. unfold update_row.
    destruct (update_filter (user_id u) (Some 1%Z) x) eqn:Hf; [| reflexivity].
    unfold update_filter in Hf. apply andb_true_iff in Hf. destruct Hf as [Hx _].
    rewrite (filter_one_unique _ _ _ _ _ Hid Hin Hx). reflexivity.
  - rewrite (update_filter_rows w u (Some 1%Z) Hu).
    destruct (update_filter (user_id u) (Some 1%Z) u); reflexivity.
Qed.

(** C3: the write stores a value computed from the earlier read.  Request 0
    reads the balance 2; request 1 then deducts, leaving 1; request 0's write
    passes the filter and stores 1 again, where the conditional decrement on
    the store's balance would store 0. *)
Theorem deduct_write_not_conditional_decrement :
  exists w1 t0,
    interleave world_handler world_two
      [deductCredit "+911234567890"; deductCredit "+911234567890"]
      [0; 1; 1; 1] = (w1, [t0; Ret (mkDeduct true 1)]) /\
    t0 = deduct_update (mkUser 7 "+911234567890" 2) /\
    users w1 = [mkUser 7 "+911234567890" 1] /\
    users (fst (step world_handler w1 t0)) = [mkUser 7 "+911234567890" 1] /\
    users (fst (deduct_write (mkUser 7 "+911234567890" 2) w1))
      = [mkUser 7 "+911234567890" 1] /\
    users (fst (spec_conditional_decrement 7 w1)) = [mkUser 7 "+911234567890" 0].
Proof.
  eexists. eexists. split; [reflexivity |]. repeat split.
Qed.

(** * Further properties of the same code *)

(** ** Access boundary and signature checks *)

(** X1: with a bot secret configured, [authenticateBot] lets a request
    through exactly when the header is that secret; any other request is
    answered 401, with the missing-header message when the header is absent
    or empty and the invalid-secret message otherwise. *)
Theorem authenticateBot_configured :
  forall config secret header,
  bot_secret config = Some secret ->
  secret <> "" ->
  (authenticateBot config header = CallNext <-> header = Some secret) /\
  (header <> Some secret ->
   authenticateBot config header =
   Reply (sendError (if truthy header then "Invalid bot secret"
                     else "Missing x-bot-secret header") 401)).
Proof.
  intros config secret header Hsec Hne.
  unfold authenticateBot. rewrite Hsec, (truthy_nonempty _ Hne). cbn [negb].
  destruct header as [given |]; cbn [truthy].
  - destruct (String.eqb_spec given "") as [-> | Hg]; cbn [negb].
    + split; [split; [discriminate | intros [= <-]; contradiction] | reflexivity].
    + destruct (String.eqb_spec given secret) as [-> | Hd]; cbn [negb].
      * split; [split; reflexivity | intros H; contradiction].
      * split; [split; [discriminate | intros [= ->]; contradiction]
               | reflexivity].
  - split; [split; discriminate | reflexivity].
Qed.

Lemma authenticateBot_configured_witness :
  authenticateBot (mkConfig (Some "s3cret") None None None) (Some "guess") =
    Reply (sendError "Invalid bot secret" 401) /\
  authenticateBot (mkConfig (Some "s3cret") None None None) None =
    Reply (sendError "Missing x-bot-secret header" 401).
Proof.
  destruct (authenticateBot_configured (mkConfig (Some "s3cret") None None None)
              "s3cret" (Some "guess") eq_refl) as [_ H1]; [discriminate |].
  destruct (authenticateBot_configured (mkConfig (Some "s3cret") None None None)
              "s3cret" None eq_refl) as [_ H2]; [discriminate |].
  split; [apply H1 | apply H2]; discriminate.
Defined.

(** X2: the payment signature check accepts exactly the non-empty keyed
    hash of [orderId|paymentId] under a configured, non-empty key secret. *)
Theorem verifyRazorpayPayment_accepts_iff :
  forall hmac config orderId paymentId signature,
  verifyRazorpayPayment hmac config orderId paymentId signature = true <->
  exists secret,
    razorpay_keySecret config = Some secret /\ secret <> "" /\
    truthy signature = true /\
    signature =
      Some (hmac secret (template orderId ++ "|" ++ template paymentId)%string).
Proof.
  intros hmac config orderId paymentId signature.
  unfold verifyRazorpayPayment.
  destruct (truthy (razorpay_keySecret config)) eqn:Hs; cbn [negb].
  - destruct (truthy_some _ Hs) as [secret [Hsec Hne]]. rewrite Hsec.
    cbn [template]. split.
    + intros H. exists secret.
      destruct (truthy signature) eqn:Ht.
      * apply safe_compare_true_iff in H; auto.
      * rewrite safe_compare_falsy in H by exact Ht. discriminate.
    + intros [secret' [[= <-] [_ [Ht Hsig]]]].
      apply safe_compare_true_iff; assumption.
  - split; [discriminate |].
    intros [secret [Hsec [Hne _]]]. rewrite Hsec, (truthy_nonempty _ Hne) in Hs.
    discriminate.
Qed.

(** X3: the webhook signature check accepts exactly the non-empty keyed hash
    of the raw body under a configured, non-empty webhook secret; the
    payment key secret plays no part, and a body that is neither bytes nor a
    string (an object a JSON parser left in [req.body]) is never accepted. *)
Theorem verifyRazorpayWebhook_accepts_iff :
  forall hmac config rawBody signature,
  verifyRazorpayWebhook hmac config rawBody signature = true <->
  exists secret bytes,
    hmac_input rawBody = Some bytes /\
    razorpay_webhookSecret config = Some secret /\ secret <> "" /\
    truthy signature = true /\
    signature = Some (hmac secret bytes).
Proof.
  intros hmac config rawBody signature.
  unfold verifyRazorpayWebhook.
  destruct (truthy (razorpay_webhookSecret config)) eqn:Hs; cbn [negb].
  - destruct (truthy_some _ Hs) as [secret [Hsec Hne]]. rewrite Hsec.
    cbn [template].
    destruct (hmac_input rawBody) as [bytes |].
    + split.
      * intros H. exists secret, bytes.
        destruct (truthy signature) eqn:Ht.
        -- apply safe_compare_true_iff in H; auto.
        -- rewrite safe_compare_falsy in H by exact Ht. discriminate.
      * intros [secret' [bytes' [[= <-] [[= <-] [_ [Ht Hsig]]]]]].
        apply safe_compare_true_iff; assumption.
    + split; [discriminate |].
      intros [secret' [bytes' [Hb _]]]. discriminate.
  - split; [discriminate |].
    intros [secret [bytes [_ [Hsec [Hne _]]]]].
    rewrite Hsec, (truthy_nonempty _ Hne) in Hs. discriminate.
Qed.

(** ** Order creation: failure modes *)

(** X4: [createOrder] answers 400 when a field is missing and 404 when the
    package is unknown, and hands the error on when the gateway keys are not
    configured; in none of these cases is an order created or anything
    written. *)
Theorem createOrder_failures_change_nothing :
  forall config now package_id phone w,
  (truthy package_id && truthy phone = false ->
   createOrder config now package_id phone =
   Ret (sendError "Package ID and phone number are required" 400)) /\
  (truthy package_id && truthy phone = true ->
   filter (package_is (template package_id)) (packages w) = [] ->
   run world_handler w (createOrder config now package_id phone) =
   (w, inr (sendError "Package not found" 404))) /\
  (truthy package_id && truthy phone = true ->
   forall P,
   filter (package_is (template package_id)) (packages w) = [P] ->
   razorpay config = false ->
   run world_handler w (createOrder config now package_id phone) =
   (w, inr (Next "Razorpay not configured. Please set RAZORPAY_KEY_ID and RAZORPAY_KEY_SECRET environment variables."))).
Proof.
  intros config now package_id phone w. unfold createOrder.
  split; [| split].
  - intros H. destruct (truthy package_id), (truthy phone);
      try discriminate H; reflexivity.
  - intros H Hnone. apply andb_true_iff in H. destruct H as [H1 H2].
    rewrite run_try_catch, H1, H2. cbn [negb orb].
    rewrite run_bind, run_await. cbn [world_handler]. rewrite Hnone.
    reflexivity.
  - intros H P HP Hr. apply andb_true_iff in H. destruct H as [H1 H2].
    rewrite run_try_catch, H1, H2. cbn [negb orb].
    rewrite run_bind, run_await. cbn [world_handler]. rewrite HP.
    cbn [single sb_ok data error].
    unfold createRazorpayOrder. rewrite Hr. reflexivity.
Qed.

Lemma createOrder_failures_change_nothing_witness :
  createOrder config_example 1700 None (Some "+911234567890") =
    Ret (sendError "Package ID and phone number are required" 400) /\
  run world_handler world_shop
    (createOrder config_example 1700 (Some "pkg_999") (Some "+911234567890")) =
    (world_shop, inr (sendError "Package not found" 404)) /\
  run world_handler world_shop
    (createOrder config_unset 1700 (Some "pkg_50") (Some "+911234567890")) =
    (world_shop, inr (Next "Razorpay not configured. Please set RAZORPAY_KEY_ID and RAZORPAY_KEY_SECRET environment variables.")).
Proof.
  split; [| split].
  - apply (createOrder_failures_change_nothing config_example 1700 None
             (Some "+911234567890") world_shop). reflexivity.
  - apply (createOrder_failures_change_nothing config_example 1700
             (Some "pkg_999") (Some "+911234567890") world_shop); reflexivity.
  - apply (createOrder_failures_change_nothing config_unset 1700
             (Some "pkg_50") (Some "+911234567890") world_shop) with package_50;
      reflexivity.
Defined.


(** ** The credit service, one call at a time *)

Lemma run_getOrCreateUser_new : forall w phone,
  existsb (phone_is phone) (users w) = false ->
  run world_handler w (getOrCreateUser phone) =
    (user_created w phone, inr (mkUser (next_user_id w) phone 3)).
Proof.
  intros w phone Hnew.
  pose proof (existsb_false_filter _ _ _ Hnew) as Hnone.
  unfold getOrCreateUser. simpl. rewrite Hnone. simpl. rewrite Hnew.
  reflexivity.
Qed.

Lemma has_user_created : forall w phone,
  existsb (phone_is phone) (users w) = false ->
  existsb (id_is (next_user_id w)) (users w) = false ->
  has_user (user_created w phone) (mkUser (next_user_id w) phone 3).
Proof.
  intros w phone Hp Hi. unfold has_user, user_created. cbn [users phone_number user_id].
  rewrite !filter_app.
  rewrite (existsb_false_filter _ _ _ Hp), (existsb_false_filter _ _ _ Hi).
  cbn [filter app]. unfold phone_is, id_is. cbn [phone_number user_id].
  rewrite String.eqb_refl, Nat.eqb_refl. auto.
Qed.

Lemma run_addCredits_from : forall w w1 u phone n source ref,
  run world_handler w (getOrCreateUser phone) = (w1, inr u) ->
  has_user w1 u ->
  run world_handler w (addCredits phone (Num n) source ref) =
    (credited w1 u n (mkTx (user_id u) credit (Num n) source ref),
     inr (set_credits (credits u + n) u)) /\
  has_user (credited w1 u n (mkTx (user_id u) credit (Num n) source ref))
    (set_credits (credits u + n) u).
Proof.
  intros w w1 u phone n source ref Hget Hu.
  assert (Hf : update_filter (user_id u) None u = true).
  { unfold update_filter, id_is. rewrite Nat.eqb_refl. reflexivity. }
  destruct (update_hit w1 u None (credits u + n) Hu Hf) as [Hupd Hu'].
  split.
  - unfold addCredits. rewrite run_bind, Hget.
    cbn [js_add]. rewrite run_bind, run_await, Hupd. reflexivity.
  - destruct Hu' as [Hp Hi]. split; [exact Hp | exact Hi].
Qed.

Lemma run_deductCredit_from : forall w w1 u phone,
  run world_handler w (getOrCreateUser phone) = (w1, inr u) ->
  has_user w1 u ->
  (1 <= credits u)%Z ->
  run world_handler w (deductCredit phone) =
    (debited w1 u, inr (mkDeduct true (credits u - 1))) /\
  has_user (debited w1 u) (set_credits (credits u - 1) u).
Proof.
  intros w w1 u phone Hget Hu Hc.
  assert (Hf : update_filter (user_id u) (Some 1%Z) u = true).
  { unfold update_filter, id_is. rewrite Nat.eqb_refl.
    apply Z.leb_le in Hc. rewrite Hc. reflexivity. }
  destruct (update_hit w1 u (Some 1%Z) (credits u - 1) Hu Hf) as [Hupd Hu'].
  split.
  - unfold deductCredit. rewrite run_bind, Hget.
    unfold deduct_check.
    destruct (Z.leb_spec (credits u) 0) as [Hle | _]; [lia |].
    unfold deduct_update. rewrite run_bind, run_await, Hupd.
    cbn [sb_ok data error set_credits credits].
    destruct (Z.ltb_spec (credits u - 1) 0) as [Hlt | _]; [lia |].
    reflexivity.
  - destruct Hu' as [Hp Hi]. split; [exact Hp | exact Hi].
Qed.

(** X5: run on its own, [deductCredit] for a user with at least one credit
    succeeds with the balance minus one, writes that balance and logs one
    debit; for a user with no credit it fails with the balance and changes
    nothing; for an unknown phone number it first creates the user with 3
    credits and then succeeds with 2. *)
Theorem deductCredit_alone :
  forall w,
  (forall u, has_user w u -> (1 <= credits u)%Z ->
     run world_handler w (deductCredit (phone_number u)) =
       (debited w u, inr (mkDeduct true (credits u - 1))) /\
     has_user (debited w u) (set_credits (credits u - 1) u)) /\
  (forall u, has_user w u -> (credits u <= 0)%Z ->
     run world_handler w (deductCredit (phone_number u)) =
       (w, inr (mkDeduct false (credits u)))) /\
  (forall phone,
     existsb (phone_is phone) (users w) = false ->
     existsb (id_is (next_user_id w)) (users w) = false ->
     run world_handler w (deductCredit phone) =
       (debited (user_created w phone) (mkUser (next_user_id w) phone 3),
        inr (mkDeduct true 2))).
Proof.
  intros w. split; [| split].
  - intros u Hu Hc.
    apply run_deductCredit_from; auto using run_getOrCreateUser_existing.
  - intros u Hu Hc. apply deductCredit_exhausted; assumption.
  - intros phone Hp Hi.
    apply (run_deductCredit_from w (user_created w phone)
             (mkUser (next_user_id w) phone 3) phone).
    + apply run_getOrCreateUser_new; assumption.
    + apply has_user_created; assumption.
    + simpl. lia.
Qed.

Lemma deductCredit_alone_witness :
  run world_handler world_two (deductCredit "+911234567890") =
    (debited world_two (mkUser 7 "+911234567890" 2), inr (mkDeduct true 1)) /\
  run world_handler world_empty (deductCredit "+919999999999") =
    (debited (user_created world_empty "+919999999999")
       (mkUser 1 "+919999999999" 3), inr (mkDeduct true 2)).
Proof.
  destruct (deductCredit_alone world_two) as [H1 _].
  destruct (deductCredit_alone world_empty) as [_ [_ H2]].
  split.
  - apply (H1 (mkUser 7 "+911234567890" 2)); [split; reflexivity | simpl; lia].
  - apply H2; reflexivity.
Defined.

(** X6: run on its own, [addCredits] adds the amount, whatever its sign, to
    the balance of an existing user and logs one credit transaction with the
    given source and reference; for an unknown phone number it creates the
    user first, so the balance ends at 3 plus the amount. *)
Theorem addCredits_alone :
  forall w n source ref,
  (forall u, has_user w u ->
     run world_handler w (addCredits (phone_number u) (Num n) source ref) =
       (credited w u n (mkTx (user_id u) credit (Num n) source ref),
        inr (set_credits (credits u + n) u)) /\
     has_user (credited w u n (mkTx (user_id u) credit (Num n) source ref))
       (set_credits (credits u + n) u)) /\
  (forall phone,
     existsb (phone_is phone) (users w) = false ->
     existsb (id_is (next_user_id w)) (users w) = false ->
     run world_handler w (addCredits phone (Num n) source ref) =
       (credited (user_created w phone) (mkUser (next_user_id w) phone 3) n
          (mkTx (next_user_id w) credit (Num n) source ref),
        inr (mkUser (next_user_id w) phone (3 + n)))).
Proof.
  intros w n source ref. split.
  - intros u Hu.
    apply run_addCredits_from; auto using run_getOrCreateUser_existing.
  - intros phone Hp Hi.
    apply (run_addCredits_from w (user_created w phone)
             (mkUser (next_user_id w) phone 3) phone).
    + apply run_getOrCreateUser_new; assumption.
    + apply has_user_created; assumption.
Qed.

Lemma addCredits_alone_witness :
  run world_handler world_two
    (addCredits "+911234567890" (Num (-5)) "promotion" None) =
    (credited world_two (mkUser 7 "+911234567890" 2) (-5)
       (mkTx 7 credit (Num (-5)) "promotion" None),
     inr (mkUser 7 "+911234567890" (-3))) /\
  run world_handler world_empty
    (addCredits "+919999999999" (Num 50) "payment" (Some "pay_1")) =
    (credited (user_created world_empty "+919999999999")
       (mkUser 1 "+919999999999" 3) 50
       (mkTx 1 credit (Num 50) "payment" (Some "pay_1")),
     inr (mkUser 1 "+919999999999" 53)).
Proof.
  destruct (addCredits_alone world_two (-5) "promotion" None) as [H1 _].
  destruct (addCredits_alone world_empty 50 "payment" (Some "pay_1")) as [_ H2].
  split.
  - apply (H1 (mkUser 7 "+911234567890" 2)). split; reflexivity.
  - apply H2; reflexivity.
Defined.

(** ** Payment verification: who and what is credited *)

Lemma verifyRazorpayPayment_valid : forall hmac config orderId payId secret,
  razorpay_keySecret config = Some secret ->
  secret <> "" ->
  hmac secret (orderId ++ "|" ++ payId)%string <> "" ->
  verifyRazorpayPayment hmac config (Some orderId) (Some payId)
    (Some (hmac secret (orderId ++ "|" ++ payId)%string)) = true.
Proof.
  intros hmac config orderId payId secret Hsec Hne Hh.
  unfold verifyRazorpayPayment. rewrite Hsec, (truthy_nonempty _ Hne).
  cbn [negb template].
  apply safe_compare_true_iff; [apply truthy_nonempty; exact Hh | reflexivity].
Qed.

(** X7: with a valid signature, [verifyPayment] for a phone number without a
    user answers 404 and, unlike the credit service, creates no user; for an
    unknown package it answers 404 as well; in both cases nothing is written
    and nothing is credited. *)
Theorem verifyPayment_not_found_changes_nothing :
  forall hmac config w orderId payId pkgId phone secret,
  razorpay_keySecret config = Some secret ->
  secret <> "" -> orderId <> "" -> payId <> "" -> pkgId <> "" -> phone <> "" ->
  hmac secret (orderId ++ "|" ++ payId)%string <> "" ->
  (filter (phone_is phone) (users w) = [] ->
   run world_handler w
     (verifyPayment hmac config
        (signed_request hmac secret orderId payId phone pkgId)) =
   (w, inr (sendError "User profile not found. Please register first." 404))) /\
  (forall u, filter (phone_is phone) (users w) = [u] ->
   filter (package_is pkgId) (packages w) = [] ->
   run world_handler w
     (verifyPayment hmac config
        (signed_request hmac secret orderId payId phone pkgId)) =
   (w, inr (sendError "Package details not found" 404))).
Proof.
  intros hmac config w orderId payId pkgId phone secret Hsec Hne Ho Hp Hk Hph
    Hh.
  pose proof (verifyRazorpayPayment_valid hmac config orderId payId secret
                Hsec Hne Hh) as Hv.
  split.
  - intros Hnone. unfold verifyPayment, signed_request. rewrite run_try_catch.
    cbn [razorpay_order_id razorpay_payment_id razorpay_signature
         req_phone_number req_package_id].
    rewrite (truthy_nonempty _ Ho), (truthy_nonempty _ Hp),
      (truthy_nonempty _ Hk), (truthy_nonempty _ Hph), (truthy_nonempty _ Hh).
    cbn [negb orb]. rewrite Hv. cbn [negb].
    rewrite run_bind, run_await. cbn [template world_handler].
    rewrite Hnone. reflexivity.
  - intros u Hu Hnone. unfold verifyPayment, signed_request. rewrite run_try_catch.
    cbn [razorpay_order_id razorpay_payment_id razorpay_signature
         req_phone_number req_package_id].
    rewrite (truthy_nonempty _ Ho), (truthy_nonempty _ Hp),
      (truthy_nonempty _ Hk), (truthy_nonempty _ Hph), (truthy_nonempty _ Hh).
    cbn [negb orb]. rewrite Hv. cbn [negb].
    rewrite run_bind, run_await. cbn [template world_handler].
    rewrite Hu. cbn [single sb_ok data error].
    rewrite run_bind, run_await. cbn [world_handler]. rewrite Hnone.
    reflexivity.
Qed.

Lemma verifyPayment_not_found_changes_nothing_witness :
  run world_handler world_shop
    (verifyPayment demo_hmac config_example
       (mkVerifyRequest (Some "order_0") (Some "pay_1")
          (Some (demo_hmac "rzp_test_secret" "order_0|pay_1"))
          (Some "+910000000000") (Some "pkg_50"))) =
    (world_shop,
     inr (sendError "User profile not found. Please register first." 404)).
Proof.
  apply (verifyPayment_not_found_changes_nothing demo_hmac config_example
           world_shop "order_0" "pay_1" "pkg_50" "+910000000000"
           "rzp_test_secret"); try reflexivity; discriminate.
Defined.

(** X8: [verifyPayment] never looks at the order it verifies: after an order
    was created for one package, a correctly signed request naming another
    package credits that other package's credits. *)
Theorem verifyPayment_credits_the_requested_package :
  forall hmac config w now u PA PB pkgA pkgB payId secret amount,
  truthy (razorpay_keyId config) = true ->
  razorpay_keySecret config = Some secret ->
  secret <> "" -> pkgA <> "" -> pkgB <> "" -> payId <> "" ->
  phone_number u <> "" ->
  (forall msg, hmac secret msg <> "") ->
  has_user w u ->
  filter (package_is pkgA) (packages w) = [PA] ->
  filter (package_is pkgB) (packages w) = [PB] ->
  Math_round_double (package_price PA * 100)%float = Num amount ->
  run world_handler w
    (createOrder config now (Some pkgA) (Some (phone_number u))) =
    (order_placed w (placed_order w now pkgA (phone_number u) PA amount),
     inr (sendSuccess "Order created successfully"
            (OrderCreated (next_order_id w) amount "INR" PA))) /\
  run world_handler
    (order_placed w (placed_order w now pkgA (phone_number u) PA amount))
    (verifyPayment hmac config
       (signed_request hmac secret (next_order_id w) payId (phone_number u)
          pkgB)) =
    (payment_verified
       (order_placed w (placed_order w now pkgA (phone_number u) PA amount))
       u PB (next_order_id w) payId pkgB,
     inr (sendSuccess "Payment verified and credits added successfully"
            (PaymentVerified (Some payId) (Some (next_order_id w))
               (package_credits PB) (credits u + package_credits PB)))) /\
  has_user
    (payment_verified
       (order_placed w (placed_order w now pkgA (phone_number u) PA amount))
       u PB (next_order_id w) payId pkgB)
    (set_credits (credits u + package_credits PB) u).
Proof.
  intros hmac config w now u PA PB pkgA pkgB payId secret amount Hkey Hsec Hne
    HkA HkB Hp Hph Hh Hu HPA HPB Hamount.
  assert (Hr : razorpay config = true).
  { unfold razorpay. rewrite Hkey, Hsec, (truthy_nonempty _ Hne). reflexivity. }
  pose proof (run_createOrder config w now pkgA (phone_number u) PA amount
                Hr HkA Hph HPA Hamount) as Hcreate.
  assert (Ho : next_order_id w <> "") by (unfold next_order_id; discriminate).
  destruct (run_verifyPayment_valid hmac config
              (order_placed w (placed_order w now pkgA (phone_number u) PA amount))
              u PB (next_order_id w) payId pkgB secret Hsec Hne Ho Hp HkB Hph
              (Hh _) Hu HPB) as [Hverify Hu2].
  split; [exact Hcreate |].
  split; [exact Hverify | exact Hu2].
Qed.

Lemma verifyPayment_credits_the_requested_package_witness :
  exists w1 w2,
    run world_handler
      (mkWorld [mkUser 7 "+911234567890" 3] []
         [mkPackage "pkg_5" "Trial" 10 5; mkPackage "pkg_500" "Pro" 900 500]
         [] [] 8)
      (createOrder config_example 1700 (Some "pkg_5") (Some "+911234567890")) =
      (w1, inr (sendSuccess "Order created successfully"
                  (OrderCreated "order_0" 1000 "INR"
                     (mkPackage "pkg_5" "Trial" 10 5)))) /\
    run world_handler w1
      (verifyPayment demo_hmac config_example
         (signed_request demo_hmac "rzp_test_secret" "order_0" "pay_1"
            "+911234567890" "pkg_500")) =
      (w2, inr (sendSuccess "Payment verified and credits added successfully"
                  (PaymentVerified (Some "pay_1") (Some "order_0") 500 503))).
Proof.
  destruct (verifyPayment_credits_the_requested_package demo_hmac config_example
              (mkWorld [mkUser 7 "+911234567890" 3] []
                 [mkPackage "pkg_5" "Trial" 10 5;
                  mkPackage "pkg_500" "Pro" 900 500] [] [] 8)
              1700 (mkUser 7 "+911234567890" 3)
              (mkPackage "pkg_5" "Trial" 10 5) (mkPackage "pkg_500" "Pro" 900 500)
              "pkg_5" "pkg_500" "pay_1" "rzp_test_secret" 1000)
    as [H1 [H2 _]]; try reflexivity; try discriminate.
  - split; reflexivity.
  - eexists. eexists. split; [exact H1 | exact H2].
Defined.

(** ** Webhook: what a verified delivery does *)

Lemma verifyRazorpayWebhook_valid : forall hmac config rawBody secret,
  razorpay_webhookSecret config = Some secret ->
  secret <> "" ->
  hmac secret rawBody <> "" ->
  verifyRazorpayWebhook hmac config (RawBody rawBody) (Some (hmac secret rawBody))
    = true.
Proof.
  intros hmac config rawBody secret Hsec Hne Hh.
  unfold verifyRazorpayWebhook. rewrite Hsec, (truthy_nonempty _ Hne).
  cbn [negb template].
  apply safe_compare_true_iff; [apply truthy_nonempty; exact Hh | reflexivity].
Qed.

(** X9: a verified delivery whose body cannot be parsed is answered 200 with
    status [error], and one whose event is not [payment.captured] is answered
    200 with status [ok]; neither awaits any store or gateway operation. *)
Theorem webhook_other_deliveries_do_nothing :
  forall hmac JSON_parse parseInt config rawBody secret,
  razorpay_webhookSecret config = Some secret ->
  secret <> "" ->
  hmac secret rawBody <> "" ->
  (forall e, JSON_parse rawBody = inl e ->
   webhook hmac JSON_parse parseInt config (RawBody rawBody) (Some (hmac secret rawBody)) =
   Ret (Responded (mkResponse 200 (StatusBody "error")))) /\
  (forall event kind,
   JSON_parse rawBody = inr event ->
   prop event "event" = inr kind ->
   is_payment_captured kind = false ->
   webhook hmac JSON_parse parseInt config (RawBody rawBody) (Some (hmac secret rawBody)) =
   Ret (Responded (mkResponse 200 (StatusBody "ok")))).
Proof.
  intros hmac JSON_parse parseInt config rawBody secret Hsec Hne Hh.
  pose proof (verifyRazorpayWebhook_valid hmac config rawBody secret Hsec Hne Hh)
    as Hv.
  split.
  - intros e He. unfold webhook.
    rewrite (truthy_nonempty _ Hh), Hv. cbn [negb body_toString lift bind].
    rewrite He. reflexivity.
  - intros event kind He Hk Hc. unfold webhook.
    rewrite (truthy_nonempty _ Hh), Hv. cbn [negb body_toString lift bind].
    rewrite He. cbn [lift bind].
    rewrite Hk. cbn [lift bind]. rewrite Hc. reflexivity.
Qed.

Lemma webhook_other_deliveries_do_nothing_witness :
  webhook demo_hmac
    (fun _ => inr (JObj [("event", JStr "payment.failed")])) demo_parseInt
    config_example (RawBody "{}") (Some (demo_hmac "whsec_test" "{}")) =
  Ret (Responded (mkResponse 200 (StatusBody "ok"))).
Proof.
  destruct (webhook_other_deliveries_do_nothing demo_hmac
              (fun _ => inr (JObj [("event", JStr "payment.failed")]))
              demo_parseInt config_example "{}" "whsec_test" eq_refl)
    as [_ H]; try discriminate.
  apply (H (JObj [("event", JStr "payment.failed")]) (JStr "payment.failed"));
    reflexivity.
Defined.

Lemma run_webhook_captured_from :
  forall hmac JSON_parse parseInt config w w1 u o n rawBody secret payId,
  razorpay config = true ->
  razorpay_webhookSecret config = Some secret ->
  secret <> "" ->
  hmac secret rawBody <> "" ->
  JSON_parse rawBody = inr (captured_event payId (order_id o)) ->
  find_order (order_id o) (orders w) = Some o ->
  parseInt (note_credits (order_notes o)) = Num n ->
  run world_handler w (getOrCreateUser (note_phone_number (order_notes o))) =
    (w1, inr u) ->
  has_user w1 u ->
  run world_handler w
    (webhook hmac JSON_parse parseInt config (RawBody rawBody)
       (Some (hmac secret rawBody))) =
    (credited w1 u n
       (mkTx (user_id u) credit (Num n) "webhook_payment" (Some payId)),
     inr (Responded (mkResponse 200 (StatusBody "ok")))).
Proof.
  intros hmac JSON_parse parseInt config w w1 u o n rawBody secret payId
    Hr Hsec Hne Hh Hparse Hfind Hint Hget Hu.
  destruct (run_addCredits_from w w1 u _ n "webhook_payment" (Some payId)
              Hget Hu) as [Hadd _].
  unfold webhook. rewrite run_try_catch.
  rewrite (truthy_nonempty _ Hh),
    (verifyRazorpayWebhook_valid hmac config rawBody secret Hsec Hne Hh).
  cbn [negb body_toString lift bind]. rewrite Hparse.
  unfold captured_event.
  cbn [bind lift prop assoc_field String.eqb Ascii.eqb Bool.eqb
       is_payment_captured]. rewrite Hr.
  cbn [negb bind await_promise run world_handler].
  rewrite Hfind.
  cbn [bind lift prop assoc_field String.eqb Ascii.eqb Bool.eqb reference_of].
  rewrite Hint, run_bind, Hadd. reflexivity.
Qed.

(** X10: a verified [payment.captured] delivery whose order the gateway does
    not know is answered 200 with status [error]; nothing is credited and
    nothing is written. *)
Theorem webhook_unknown_order_changes_nothing :
  forall hmac JSON_parse parseInt config w rawBody secret payId orderId,
  razorpay_webhookSecret config = Some secret ->
  secret <> "" ->
  hmac secret rawBody <> "" ->
  JSON_parse rawBody = inr (captured_event payId orderId) ->
  find_order orderId (orders w) = None ->
  run world_handler w
    (webhook hmac JSON_parse parseInt config (RawBody rawBody)
       (Some (hmac secret rawBody))) =
    (w, inr (Responded (mkResponse 200 (StatusBody "error")))).
Proof.
  intros hmac JSON_parse parseInt config w rawBody secret payId orderId
    Hsec Hne Hh Hparse Hfind.
  unfold webhook. rewrite run_try_catch.
  rewrite (truthy_nonempty _ Hh),
    (verifyRazorpayWebhook_valid hmac config rawBody secret Hsec Hne Hh).
  cbn [negb body_toString lift bind]. rewrite Hparse.
  unfold captured_event.
  cbn [bind lift prop assoc_field String.eqb Ascii.eqb Bool.eqb
       is_payment_captured].
  destruct (razorpay config); cbn [negb bind await_promise run world_handler].
  - rewrite Hfind. reflexivity.
  - reflexivity.
Qed.

Lemma webhook_unknown_order_changes_nothing_witness :
  run world_handler world_shop
    (webhook demo_hmac demo_JSON_parse demo_parseInt config_example (RawBody "{}")
       (Some (demo_hmac "whsec_test" "{}"))) =
    (world_shop, inr (Responded (mkResponse 200 (StatusBody "error")))).
Proof.
  apply (webhook_unknown_order_changes_nothing demo_hmac demo_JSON_parse
           demo_parseInt config_example world_shop "{}" "whsec_test" "pay_1"
           "order_0"); try reflexivity; discriminate.
Defined.

(** X11: unlike the verify endpoint, the webhook, with the gateway client
    configured, creates the user when the phone number in the order's notes
    has none: the new user ends with the 3 starter credits plus the order's
    credits. *)
Theorem webhook_creates_missing_user :
  forall hmac JSON_parse parseInt config w o n rawBody secret payId,
  razorpay config = true ->
  razorpay_webhookSecret config = Some secret ->
  secret <> "" ->
  hmac secret rawBody <> "" ->
  JSON_parse rawBody = inr (captured_event payId (order_id o)) ->
  find_order (order_id o) (orders w) = Some o ->
  parseInt (note_credits (order_notes o)) = Num n ->
  existsb (phone_is (note_phone_number (order_notes o))) (users w) = false ->
  existsb (id_is (next_user_id w)) (users w) = false ->
  exists w2,
    run world_handler w
      (webhook hmac JSON_parse parseInt config (RawBody rawBody)
         (Some (hmac secret rawBody))) =
      (w2, inr (Responded (mkResponse 200 (StatusBody "ok")))) /\
    users w2 =
      users w
      ++ [mkUser (next_user_id w) (note_phone_number (order_notes o)) (3 + n)] /\
    credit_transactions w2 =
      credit_transactions w
      ++ [mkTx (next_user_id w) credit (Num 3) "system" None;
          mkTx (next_user_id w) credit (Num n) "webhook_payment" (Some payId)].
Proof.
  intros hmac JSON_parse parseInt config w o n rawBody secret payId
    Hr Hsec Hne Hh Hparse Hfind Hint Hp Hi.
  set (phone := note_phone_number (order_notes o)) in *.
  pose proof (has_user_created w phone Hp Hi) as Hu.
  eexists. split.
  - apply (run_webhook_captured_from hmac JSON_parse parseInt config w
             (user_created w phone) (mkUser (next_user_id w) phone 3) o n
             rawBody secret payId); auto.
    apply run_getOrCreateUser_new; exact Hp.
  - split.
    + cbn [credited user_created users user_id credits].
      rewrite map_app. cbn [map].
      assert (Hold : map (update_row (next_user_id w) None (3 + n)) (users w)
                     = users w).
      { unfold update_row. apply filter_nil_map_id.
        unfold update_filter.
        rewrite filter_andb, (existsb_false_filter _ _ _ Hi). reflexivity. }
      rewrite Hold. unfold update_row, update_filter, id_is.
      cbn [user_id]. rewrite Nat.eqb_refl. reflexivity.
    + cbn [credited user_created credit_transactions user_id].
      rewrite <- app_assoc. reflexivity.
Qed.

Lemma webhook_creates_missing_user_witness :
  exists w2,
    run world_handler
      (mkWorld [] [] [package_50] [] [order_0] 1)
      (webhook demo_hmac demo_JSON_parse demo_parseInt config_example (RawBody "{}")
         (Some (demo_hmac "whsec_test" "{}"))) =
      (w2, inr (Responded (mkResponse 200 (StatusBody "ok")))) /\
    users w2 = [mkUser 1 "+911234567890" 53].
Proof.
  destruct (webhook_creates_missing_user demo_hmac demo_JSON_parse demo_parseInt
              config_example (mkWorld [] [] [package_50] [] [order_0] 1)
              order_0 50 "{}" "whsec_test" "pay_1")
    as [w2 [H1 [H2 _]]]; try reflexivity; try discriminate.
  exists w2. split; [exact H1 | exact H2].
Defined.

Lemma find_order_placed : forall w o,
  find_order (order_id o) (orders w) = None ->
  find_order (order_id o) (orders (order_placed w o)) = Some o.
Proof.
  intros w o Hnone. unfold find_order, order_placed in *. cbn [orders].
  induction (orders w) as [| x l IH]; cbn [app find] in *.
  - rewrite String.eqb_refl. reflexivity.
  - destruct (order_id x =? order_id o)%string; [discriminate |].
    apply IH. exact Hnone.
Qed.

(** X12: the notes [createOrder] puts on the order are what the webhook
    needs: when [parseInt] reads back the credits [createOrder] printed, a
    verified [payment.captured] delivery for the created order credits the
    package's credits to the phone number of the order request. *)
Theorem createOrder_then_webhook_credits_package :
  forall hmac JSON_parse parseInt config w now u P pkgId payId rawBody whsec
    amount,
  razorpay config = true ->
  razorpay_webhookSecret config = Some whsec ->
  whsec <> "" ->
  hmac whsec rawBody <> "" ->
  pkgId <> "" -> phone_number u <> "" ->
  has_user w u ->
  filter (package_is pkgId) (packages w) = [P] ->
  Math_round_double (package_price P * 100)%float = Num amount ->
  find_order (next_order_id w) (orders w) = None ->
  parseInt (string_of_Z (package_credits P)) = Num (package_credits P) ->
  JSON_parse rawBody = inr (captured_event payId (next_order_id w)) ->
  run world_handler w
    (createOrder config now (Some pkgId) (Some (phone_number u))) =
    (order_placed w (placed_order w now pkgId (phone_number u) P amount),
     inr (sendSuccess "Order created successfully"
            (OrderCreated (next_order_id w) amount "INR" P))) /\
  run world_handler
    (order_placed w (placed_order w now pkgId (phone_number u) P amount))
    (webhook hmac JSON_parse parseInt config (RawBody rawBody)
       (Some (hmac whsec rawBody))) =
    (credited
       (order_placed w (placed_order w now pkgId (phone_number u) P amount))
       u (package_credits P)
       (mkTx (user_id u) credit (Num (package_credits P)) "webhook_payment"
          (Some payId)),
     inr (Responded (mkResponse 200 (StatusBody "ok")))) /\
  has_user
    (credited
       (order_placed w (placed_order w now pkgId (phone_number u) P amount))
       u (package_credits P)
       (mkTx (user_id u) credit (Num (package_credits P)) "webhook_payment"
          (Some payId)))
    (set_credits (credits u + package_credits P) u).
Proof.
  intros hmac JSON_parse parseInt config w now u P pkgId payId rawBody whsec
    amount Hr Hsec Hne Hh Hk Hph Hu HP Hamount Hfresh Hint Hparse.
  pose proof (run_createOrder config w now pkgId (phone_number u) P amount
                Hr Hk Hph HP Hamount) as Hcreate.
  set (o := placed_order w now pkgId (phone_number u) P amount) in *.
  assert (Hfind : find_order (order_id o) (orders (order_placed w o)) = Some o)
    by (apply find_order_placed; exact Hfresh).
  destruct (run_webhook_captured hmac JSON_parse parseInt config
              (order_placed w o) u o (package_credits P) rawBody whsec payId
              Hr Hsec Hne Hh Hparse Hfind eq_refl Hint Hu) as [Hrun Hu2].
  split; [exact Hcreate |].
  split; [exact Hrun | exact Hu2].
Qed.

Lemma createOrder_then_webhook_credits_package_witness :
  exists w1 w2,
    run world_handler world_shop
      (createOrder config_example 1700 (Some "pkg_50") (Some "+911234567890")) =
      (w1, inr (sendSuccess "Order created successfully"
                  (OrderCreated "order_0" 10000 "INR" package_50))) /\
    run world_handler w1
      (webhook demo_hmac demo_JSON_parse demo_parseInt config_example
         (RawBody "{}") (Some (demo_hmac "whsec_test" "{}"))) =
      (w2, inr (Responded (mkResponse 200 (StatusBody "ok")))) /\
    has_user w2 (mkUser 7 "+911234567890" 53).
Proof.
  destruct (createOrder_then_webhook_credits_package demo_hmac demo_JSON_parse
              demo_parseInt config_example world_shop 1700
              (mkUser 7 "+911234567890" 3) package_50 "pkg_50" "pay_1" "{}"
              "whsec_test" 10000)
    as [H1 [H2 H3]]; try reflexivity; try discriminate.
  - split; reflexivity.
  - eexists. eexists. split; [exact H1 |]. split; [exact H2 | exact H3].
Defined.

(** ** Bot endpoints *)

(** X13: [getCredits] never reports a missing user: for a known phone number
    it answers the balance with [user_exists: true] and changes nothing, and
    for an unknown one it creates the user and answers 3 credits, again with
    [user_exists: true]; without a phone number it answers 400. *)
Theorem getCredits_always_finds_a_user :
  forall w,
  getCredits None =
    Ret (BotResponded (mkBotResponse 400 "ERROR" "Phone number is required" None)) /\
  (forall u, has_user w u -> phone_number u <> "" ->
   exists message,
     run world_handler w (getCredits (Some (phone_number u))) =
     (w, inr (sendSuccessBot message (mkBotData (credits u) (Some true))))) /\
  (forall phone, phone <> "" ->
   existsb (phone_is phone) (users w) = false ->
   run world_handler w (getCredits (Some phone)) =
   (user_created w phone,
    inr (sendSuccessBot "You have 3 credits remaining."
           (mkBotData 3 (Some true))))).
Proof.
  intros w. split; [reflexivity |]. split.
  - intros u Hu Hne. eexists. unfold getCredits.
    rewrite run_try_catch, (truthy_nonempty _ Hne). cbn [negb template].
    rewrite run_bind, run_getOrCreateUser_existing by exact Hu.
    cbn [run]. reflexivity.
  - intros phone Hne Hnew. unfold getCredits.
    rewrite run_try_catch, (truthy_nonempty _ Hne). cbn [negb template].
    rewrite run_bind, run_getOrCreateUser_new by exact Hnew.
    reflexivity.
Qed.

Lemma getCredits_always_finds_a_user_witness :
  run world_handler world_empty (getCredits (Some "+919999999999")) =
    (user_created world_empty "+919999999999",
     inr (sendSuccessBot "You have 3 credits remaining."
            (mkBotData 3 (Some true)))) /\
  exists message,
    run world_handler world_one (getCredits (Some "+911234567890")) =
    (world_one, inr (sendSuccessBot message (mkBotData 1 (Some true)))).
Proof.
  destruct (getCredits_always_finds_a_user world_empty) as [_ [_ H1]].
  destruct (getCredits_always_finds_a_user world_one) as [_ [H2 _]].
  split.
  - apply H1; [discriminate | reflexivity].
  - apply (H2 (mkUser 7 "+911234567890" 1)); [split; reflexivity | discriminate].
Defined.

(** X14: [deductCredits] answers HTTP 200 in both outcomes: status [SUCCESS]
    with the new balance when the user had a credit (the balance is written
    and one debit is logged), status [INSUFFICIENT_CREDITS] with the balance
    and an unchanged store when the user had none; spending the last credit
    is reported as no credits remaining. *)
Theorem deductCredits_replies :
  forall w u,
  has_user w u -> phone_number u <> "" ->
  ((1 <= credits u)%Z ->
   exists message,
     run world_handler w (deductCredits (Some (phone_number u))) =
     (debited w u,
      inr (sendSuccessBot message (mkBotData (credits u - 1) None))) /\
     (credits u = 1%Z ->
      message = "Image generated successfully. You have no credits remaining.")) /\
  ((credits u <= 0)%Z ->
   run world_handler w (deductCredits (Some (phone_number u))) =
   (w, inr (sendStatus "INSUFFICIENT_CREDITS"
              "You have no credits left. Please purchase a plan to continue."
              (mkBotData (credits u) None) 200))).
Proof.
  intros w u Hu Hne. split.
  - intros Hc.
    destruct (run_deductCredit_from w w u (phone_number u)
                (run_getOrCreateUser_existing w u Hu) Hu Hc) as [Hrun _].
    eexists. split.
    + unfold deductCredits.
      rewrite run_try_catch, (truthy_nonempty _ Hne). cbn [negb template].
      rewrite run_bind, Hrun. cbn [success negb remainingCredits run].
      reflexivity.
    + intros H1. cbn beta. rewrite H1. reflexivity.
  - intros Hc. unfold deductCredits.
    rewrite run_try_catch, (truthy_nonempty _ Hne). cbn [negb template].
    rewrite run_bind, deductCredit_exhausted by assumption. reflexivity.
Qed.

Lemma deductCredits_replies_witness :
  run world_handler world_one (deductCredits (Some "+911234567890")) =
    (debited world_one (mkUser 7 "+911234567890" 1),
     inr (sendSuccessBot
            "Image generated successfully. You have no credits remaining."
            (mkBotData 0 None))).
Proof.
  destruct (deductCredits_replies world_one (mkUser 7 "+911234567890" 1))
    as [H _]; [split; reflexivity | discriminate |].
  destruct H as [message [Hrun Hmsg]]; [simpl; lia |].
  rewrite Hmsg in Hrun by reflexivity. exact Hrun.
Defined.

(** X15: behind [authenticateBot], a bot controller runs only for the
    configured secret: with a secret configured and another (or no) header
    the route answers 401 and no store operation is awaited, whatever the
    controller; with no secret configured every request reaches the
    controller, whatever its header. *)
Theorem bot_route_guard :
  forall config header (controller : Proc BotOutcome),
  (forall secret, bot_secret config = Some secret -> secret <> "" ->
   header <> Some secret ->
   exists message,
     bot_route config header controller = Ret (inl (sendError message 401))) /\
  (truthy (bot_secret config) = false ->
   bot_route config header controller = (r <- controller ;; Ret (inr r))).
Proof.
  intros config header controller. split.
  - intros secret Hsec Hne Hh. unfold bot_route, authenticateBot.
    rewrite Hsec, (truthy_nonempty _ Hne). cbn [negb].
    destruct header as [given |]; cbn [truthy].
    + destruct (String.eqb_spec given "") as [-> | Hg]; cbn [negb].
      * eexists; reflexivity.
      * destruct (String.eqb_spec given secret) as [-> | Hd]; cbn [negb].
        -- contradiction.
        -- eexists; reflexivity.
    + eexists; reflexivity.
  - intros Hs. unfold bot_route, authenticateBot. rewrite Hs. reflexivity.
Qed.

Lemma bot_route_guard_witness :
  (exists message,
     bot_route (mkConfig (Some "s3cret") None None None) (Some "guess")
       (deductCredits (Some "+911234567890")) =
     Ret (inl (sendError message 401))) /\
  run world_handler world_one
    (bot_route config_unset None (deductCredits (Some "+911234567890"))) =
    (debited world_one (mkUser 7 "+911234567890" 1),
     inr (inr (sendSuccessBot
                 "Image generated successfully. You have no credits remaining."
                 (mkBotData 0 None)))).
Proof.
  destruct (bot_route_guard (mkConfig (Some "s3cret") None None None)
              (Some "guess") (deductCredits (Some "+911234567890")))
    as [H1 _].
  destruct (bot_route_guard config_unset None
              (deductCredits (Some "+911234567890"))) as [_ H2].
  split.
  - apply (H1 "s3cret"); [reflexivity | discriminate | discriminate].
  - rewrite H2 by reflexivity. reflexivity.
Defined.

(** ** The ledger under sequential use *)

Lemma ledger_sum_app : forall id txs tx,
  ledger_sum id (txs ++ [tx]) =
  (ledger_sum id txs + (if Nat.eqb (tx_user_id tx) id then tx_delta tx else 0))%Z.
Proof.
  intros id txs tx. induction txs as [| t txs IH]; cbn [app ledger_sum].
  - lia.
  - rewrite IH. lia.
Qed.

Lemma ledger_sum_fresh : forall n txs,
  Forall (fun tx => tx_user_id tx < n) txs -> ledger_sum n txs = 0%Z.
Proof.
  intros n txs H. induction H as [| t txs Ht _ IH]; cbn [ledger_sum].
  - reflexivity.
  - cbn beta in Ht.
    destruct (Nat.eqb_spec (tx_user_id t) n); [lia | rewrite IH; reflexivity].
Qed.

Lemma nodup_key_inj : forall (A K : Type) (f : A -> K) l a b,
  NoDup (map f l) -> In a l -> In b l -> f a = f b -> a = b.
Proof.
  intros A K f l a b. induction l as [| x l IH]; cbn [map]; intros Hnd Ha Hb Hf.
  - destruct Ha.
  - inversion Hnd as [| ? ? Hnot Hrest]; subst.
    destruct Ha as [-> | Ha], Hb as [-> | Hb]; auto.
    + exfalso. apply Hnot. rewrite Hf. apply in_map. exact Hb.
    + exfalso. apply Hnot. rewrite <- Hf. apply in_map. exact Ha.
Qed.

Lemma nodup_key_filter : forall (A K : Type) (f : A -> K) (p : A -> bool) l u,
  NoDup (map f l) -> In u l ->
  (forall x, p x = true <-> f x = f u) ->
  filter p l = [u].
Proof.
  intros A K f p l u Hnd Hin Hp.
  induction l as [| x l IH]; [destruct Hin |].
  cbn [map] in Hnd. inversion Hnd as [| ? ? Hnot Hrest]; subst.
  cbn [filter]. destruct (p x) eqn:Hx.
  - apply Hp in Hx.
    assert (x = u).
    { apply (nodup_key_inj A K f (x :: l)); auto. left; reflexivity. }
    subst x. f_equal.
    destruct (filter p l) as [| y rest] eqn:Hf; [reflexivity |].
    exfalso. apply Hnot.
    assert (Hy : In y (filter p l)) by (rewrite Hf; left; reflexivity).
    apply filter_In in Hy. destruct Hy as [Hy Hpy].
    apply Hp in Hpy. rewrite <- Hpy. apply in_map. exact Hy.
  - destruct Hin as [-> | Hin].
    + assert (p u = true) by (apply Hp; reflexivity). congruence.
    + apply IH; assumption.
Qed.

Lemma ledger_ok_has_user : forall w u,
  ledger_ok w -> In u (users w) -> has_user w u.
Proof.
  intros w u [Hph [Hid _]] Hin. split.
  - apply (nodup_key_filter _ _ phone_number); auto.
    intros x. unfold phone_is. apply String.eqb_eq.
  - apply (nodup_key_filter _ _ user_id); auto.
    intros x. unfold id_is. apply Nat.eqb_eq.
Qed.

Lemma has_user_In : forall w u, has_user w u -> In u (users w).
Proof.
  intros w u [Hp _].
  assert (H : In u (filter (phone_is (phone_number u)) (users w)))
    by (rewrite Hp; left; reflexivity).
  apply filter_In in H. tauto.
Qed.

(** Creating a user keeps the ledger in order. *)
Lemma ledger_ok_user_created : forall w phone,
  ledger_ok w ->
  existsb (phone_is phone) (users w) = false ->
  ledger_ok (user_created w phone) /\
  In (mkUser (next_user_id w) phone 3) (users (user_created w phone)).
Proof.
  intros w phone [Hph [Hid [Hlt [Htx Hsum]]]] Hnew.
  split; [| cbn [user_created users]; apply in_or_app; right; left; reflexivity].
  unfold ledger_ok, user_created, starter_transaction.
  cbn [users credit_transactions next_user_id user_id].
  rewrite !map_app. cbn [map phone_number user_id].
  rewrite Forall_forall in Hlt, Htx, Hsum.
  split; [| split; [| split; [| split]]].
  - apply NoDup_app; [exact Hph | repeat constructor; intros [] | ].
    intros p Hin [<- | []].
    apply in_map_iff in Hin. destruct Hin as [x [Hx Hin]].
    assert (existsb (phone_is (phone_number x)) (users w) = true).
    { apply existsb_exists. exists x. split; [exact Hin |].
      unfold phone_is. apply String.eqb_refl. }
    rewrite Hx in H. congruence.
  - apply NoDup_app; [exact Hid | repeat constructor; intros [] | ].
    intros i Hin [<- | []].
    apply in_map_iff in Hin. destruct Hin as [x [Hx Hin]].
    specialize (Hlt x Hin). lia.
  - apply Forall_app. split.
    + apply Forall_forall. intros x Hin. specialize (Hlt x Hin). lia.
    + repeat constructor.
  - apply Forall_app. split.
    + apply Forall_forall. intros x Hin. specialize (Htx x Hin). lia.
    + repeat constructor.
  - apply Forall_app. split.
    + apply Forall_forall. intros x Hin. rewrite ledger_sum_app.
      cbn [tx_user_id]. specialize (Hlt x Hin).
      destruct (Nat.eqb_spec (next_user_id w) (user_id x)); [lia |].
      rewrite (Hsum x Hin). lia.
    + constructor; [| constructor]. cbn [credits user_id].
      rewrite ledger_sum_app, ledger_sum_fresh by (apply Forall_forall; exact Htx).
      cbn [tx_user_id]. rewrite Nat.eqb_refl. reflexivity.
Qed.

(** Writing a user's new balance together with the matching transaction
    keeps the ledger in order. *)
Lemma ledger_ok_update : forall w u gte n tx,
  ledger_ok w -> In u (users w) ->
  update_filter (user_id u) gte u = true ->
  tx_user_id tx = user_id u ->
  tx_delta tx = (n - credits u)%Z ->
  ledger_ok
    (mkWorld (map (update_row (user_id u) gte n) (users w))
       (credit_transactions w ++ [tx]) (packages w) (payments w) (orders w)
       (next_user_id w)).
Proof.
  intros w u gte n tx Hok Hin Hf Htxid Hdelta.
  destruct Hok as [Hph [Hid [Hlt [Htx Hsum]]]].
  unfold ledger_ok. cbn [users credit_transactions next_user_id].
  assert (Hphones : map phone_number (map (update_row (user_id u) gte n) (users w))
                    = map phone_number (users w)).
  { rewrite map_map. apply map_ext. intros x. unfold update_row.
    destruct (update_filter (user_id u) gte x); reflexivity. }
  assert (Hids : map user_id (map (update_row (user_id u) gte n) (users w))
                 = map user_id (users w)).
  { rewrite map_map. apply map_ext. intros x. unfold update_row.
    destruct (update_filter (user_id u) gte x); reflexivity. }
  rewrite Hphones, Hids.
  rewrite Forall_forall in Hlt, Htx, Hsum.
  split; [exact Hph |]. split; [exact Hid |].
  split; [| split].
  - apply Forall_map, Forall_forall. intros x Hx. unfold update_row.
    destruct (update_filter (user_id u) gte x); cbn [set_credits user_id];
      apply Hlt; exact Hx.
  - apply Forall_app. split.
    + apply Forall_forall. exact Htx.
    + constructor; [| constructor]. rewrite Htxid. apply Hlt. exact Hin.
  - apply Forall_map, Forall_forall. intros x Hx.
    rewrite ledger_sum_app, Htxid. unfold update_row.
    destruct (update_filter (user_id u) gte x) eqn:Hfx.
    + assert (x = u).
      { apply (nodup_key_inj _ _ user_id (users w)); auto.
        unfold update_filter, id_is in Hfx.
        apply andb_true_iff in Hfx. destruct Hfx as [Hfx _].
        apply Nat.eqb_eq in Hfx. exact Hfx. }
      subst x. cbn [set_credits credits user_id].
      rewrite Nat.eqb_refl, Hdelta, <- (Hsum u Hin). lia.
    + destruct (Nat.eqb_spec (user_id u) (user_id x)) as [Heq | Hneq].
      * assert (x = u).
        { apply (nodup_key_inj _ _ user_id (users w)); auto. }
        subst x. congruence.
      * rewrite (Hsum x Hx). lia.
Qed.

Lemma ledger_ok_getOrCreateUser : forall w phone,
  ledger_ok w ->
  exists w1 u,
    run world_handler w (getOrCreateUser phone) = (w1, inr u) /\
    ledger_ok w1 /\ In u (users w1).
Proof.
  intros w phone Hok.
  destruct (existsb (phone_is phone) (users w)) eqn:He.
  - apply existsb_exists in He. destruct He as [u [Hin Hp]].
    unfold phone_is in Hp. apply String.eqb_eq in Hp. subst phone.
    exists w, u. split; [| split; assumption].
    apply run_getOrCreateUser_existing, ledger_ok_has_user; assumption.
  - destruct (ledger_ok_user_created w phone Hok He) as [Hok1 Hin1].
    exists (user_created w phone), (mkUser (next_user_id w) phone 3).
    split; [apply run_getOrCreateUser_new; exact He | split; assumption].
Qed.

Lemma ledger_ok_run_call : forall w c, ledger_ok w -> ledger_ok (run_call w c).
Proof.
  intros w c Hok.
  destruct c as [phone | phone | phone n source ref]; cbn [run_call];
    destruct (ledger_ok_getOrCreateUser w phone Hok) as [w1 [u [Hget [Hok1 Hin]]]];
    pose proof (ledger_ok_has_user w1 u Hok1 Hin) as Hu.
  - rewrite Hget. exact Hok1.
  - destruct (Z.leb_spec 1 (credits u)) as [Hc | Hc].
    + destruct (run_deductCredit_from w w1 u phone Hget Hu Hc) as [Hrun _].
      rewrite Hrun. cbn [fst]. unfold debited.
      apply ledger_ok_update; auto.
      * unfold update_filter, id_is. rewrite Nat.eqb_refl.
        apply Z.leb_le in Hc. rewrite Hc. reflexivity.
      * cbn. lia.
    + unfold deductCredit. rewrite run_bind, Hget. unfold deduct_check.
      destruct (Z.leb_spec (credits u) 0) as [_ | Hgt]; [| lia].
      exact Hok1.
  - destruct (run_addCredits_from w w1 u phone n source ref Hget Hu) as [Hrun _].
    rewrite Hrun. cbn [fst]. unfold credited.
    apply ledger_ok_update; auto.
    + unfold update_filter, id_is. rewrite Nat.eqb_refl. reflexivity.
    + cbn. lia.
Qed.

(** X16: used one call at a time, the credit service keeps the ledger
    consistent: after any sequence of [getOrCreateUser], [deductCredit] and
    [addCredits] calls on a consistent store, phone numbers and ids are still
    unique and every user's balance equals the sum of that user's credit
    transactions minus the sum of the debit transactions. *)
Theorem ledger_consistent_after_calls :
  forall calls w,
  ledger_ok w ->
  ledger_ok (run_calls w calls) /\
  forall u, In u (users (run_calls w calls)) ->
    credits u = ledger_sum (user_id u) (credit_transactions (run_calls w calls)).
Proof.
  assert (H : forall calls w, ledger_ok w -> ledger_ok (run_calls w calls)).
  { induction calls as [| c calls IH]; intros w Hok; cbn [run_calls fold_left].
    - exact Hok.
    - apply IH, ledger_ok_run_call, Hok. }
  intros calls w Hok. split; [apply H; exact Hok |].
  destruct (H calls w Hok) as [_ [_ [_ [_ Hsum]]]].
  rewrite Forall_forall in Hsum. exact Hsum.
Qed.

Lemma ledger_consistent_after_calls_witness :
  ledger_ok
    (run_calls world_empty
       [CallDeductCredit "+919999999999";
        CallAddCredits "+919999999999" 50 "payment" (Some "pay_1");
        CallGetOrCreateUser "+911234567890";
        CallDeductCredit "+919999999999"]).
Proof.
  apply (ledger_consistent_after_calls
           [CallDeductCredit "+919999999999";
            CallAddCredits "+919999999999" 50 "payment" (Some "pay_1");
            CallGetOrCreateUser "+911234567890";
            CallDeductCredit "+919999999999"] world_empty).
  unfold ledger_ok, world_empty. cbn.
  repeat split; constructor.
Defined.

(** ** Concurrent writers of one balance *)

Lemma step_as_left : forall (A B : Type) (p : Proc A) w,
  step world_handler w (as_left (B := B) p) =
  (fst (step world_handler w p), as_left (snd (step world_handler w p))).
Proof.
  intros A B [a | e | X op k] w; cbn [as_left bind step fst snd]; try reflexivity.
  destruct (world_handler X op w); reflexivity.
Qed.

Lemma step_as_right : forall (A B : Type) (p : Proc B) w,
  step world_handler w (as_right (A := A) p) =
  (fst (step world_handler w p), as_right (snd (step world_handler w p))).
Proof.
  intros A B [a | e | X op k] w; cbn [as_right bind step fst snd]; try reflexivity.
  destruct (world_handler X op w); reflexivity.
Qed.

Lemma step_addCredits_read : forall w u amount source ref,
  has_user w u ->
  step world_handler w (addCredits (phone_number u) amount source ref) =
  (w, add_write u amount source ref).
Proof.
  intros w u amount source ref Hu.
  unfold addCredits, getOrCreateUser. cbn [bind await step].
  rewrite (select_by_phone w u Hu). reflexivity.
Qed.

Lemma step_deductCredit_read : forall w u,
  has_user w u ->
  step world_handler w (deductCredit (phone_number u)) = (w, deduct_check u).
Proof.
  intros w u Hu.
  unfold deductCredit, getOrCreateUser. cbn [bind await step].
  rewrite (select_by_phone w u Hu). reflexivity.
Qed.

(** A write that finds the row [current] where the request had read [user]. *)
Lemma step_add_write : forall w user current n source ref,
  has_user w current ->
  user_id current = user_id user ->
  step world_handler w (add_write user (Num n) source ref) =
    (set_users w
       (map (update_row (user_id user) None (credits user + n)) (users w)),
     add_log user (set_credits (credits user + n) current) (Num n) source ref) /\
  has_user
    (set_users w
       (map (update_row (user_id user) None (credits user + n)) (users w)))
    (set_credits (credits user + n) current).
Proof.
  intros w user current n source ref Hu Hid.
  assert (Hf : update_filter (user_id current) None current = true).
  { unfold update_filter, id_is. rewrite Nat.eqb_refl. reflexivity. }
  destruct (update_hit w current None (credits user + n) Hu Hf) as [Hupd Hu'].
  rewrite Hid in Hupd, Hu'. split; [| exact Hu'].
  unfold add_write. cbn [js_add bind await step]. rewrite Hupd. reflexivity.
Qed.

Lemma step_deduct_update : forall w user current,
  has_user w current ->
  user_id current = user_id user ->
  (1 <= credits user)%Z ->
  (1 <= credits current)%Z ->
  step world_handler w (deduct_update user) =
    (set_users w
       (map (update_row (user_id user) (Some 1%Z) (credits user - 1)) (users w)),
     deduct_commit user (set_credits (credits user - 1) current)) /\
  has_user
    (set_users w
       (map (update_row (user_id user) (Some 1%Z) (credits user - 1)) (users w)))
    (set_credits (credits user - 1) current).
Proof.
  intros w user current Hu Hid Hc Hcur.
  assert (Hf : update_filter (user_id current) (Some 1%Z) current = true).
  { unfold update_filter, id_is. rewrite Nat.eqb_refl.
    apply Z.leb_le in Hcur. rewrite Hcur. reflexivity. }
  destruct (update_hit w current (Some 1%Z) (credits user - 1) Hu Hf)
    as [Hupd Hu'].
  rewrite Hid in Hupd, Hu'. split; [| exact Hu'].
  unfold deduct_update. cbn [bind await step]. rewrite Hupd.
  cbn [sb_ok data error set_credits credits].
  destruct (Z.ltb_spec (credits user - 1) 0); [lia | reflexivity].
Qed.

(** X17: two concurrent [addCredits] calls for one user that both read the
    balance before either writes lose one of the additions: both calls
    return normally and both transactions are logged, but the balance ends
    at the old balance plus the amount of the later writer only. *)
Theorem addCredits_concurrent_lost_update :
  forall w u n1 n2 source1 ref1 source2 ref2,
  has_user w u ->
  exists w',
    interleave world_handler w
      [addCredits (phone_number u) (Num n1) source1 ref1;
       addCredits (phone_number u) (Num n2) source2 ref2]
      [0; 1; 0; 1; 0; 1] =
      (w', [Ret (set_credits (credits u + n1) u);
            Ret (set_credits (credits u + n2) u)]) /\
    has_user w' (set_credits (credits u + n2) u) /\
    credit_transactions w' =
      credit_transactions w
      ++ [mkTx (user_id u) credit (Num n1) source1 ref1;
          mkTx (user_id u) credit (Num n2) source2 ref2].
Proof.
  intros w u n1 n2 source1 ref1 source2 ref2 Hu.
  pose proof (step_addCredits_read w u (Num n1) source1 ref1 Hu) as R0.
  pose proof (step_addCredits_read w u (Num n2) source2 ref2 Hu) as R1.
  destruct (step_add_write w u u n1 source1 ref1 Hu eq_refl) as [W0 Hu1].
  destruct (step_add_write _ u (set_credits (credits u + n1) u) n2 source2 ref2
              Hu1 eq_refl) as [W1 Hu2].
  eexists. split; [| split].
  - cbn [interleave step_nth]. rewrite R0.
    cbn [interleave step_nth]. rewrite R1.
    cbn [interleave step_nth]. rewrite W0.
    cbn [interleave step_nth]. rewrite W1.
    cbn [interleave step_nth step add_log bind await world_handler set_credits
         user_id phone_number credits].
    reflexivity.
  - exact Hu2.
  - cbn [credit_transactions set_users]. rewrite <- app_assoc. reflexivity.
Qed.

Lemma addCredits_concurrent_lost_update_witness :
  exists w',
    interleave world_handler world_two
      [addCredits "+911234567890" (Num 50) "payment" (Some "pay_1");
       addCredits "+911234567890" (Num 20) "payment" (Some "pay_2")]
      [0; 1; 0; 1; 0; 1] =
      (w', [Ret (mkUser 7 "+911234567890" 52); Ret (mkUser 7 "+911234567890" 22)]) /\
    has_user w' (mkUser 7 "+911234567890" 22).
Proof.
  destruct (addCredits_concurrent_lost_update world_two
              (mkUser 7 "+911234567890" 2) 50 20 "payment" (Some "pay_1")
              "payment" (Some "pay_2")) as [w' [H1 [H2 _]]].
  - split; reflexivity.
  - exists w'. split; [exact H1 | exact H2].
Defined.

(** X18: a [deductCredit] that has read the balance and writes after a whole
    [addCredits] wipes the added credits: both calls return success, the
    credit and the debit are both logged, and the balance ends at the balance
    the deduction had read minus one. *)
Theorem deductCredit_overwrites_addCredits :
  forall w u n source ref,
  has_user w u ->
  (1 <= credits u)%Z ->
  (1 <= credits u + n)%Z ->
  exists w',
    interleave world_handler w
      [as_left (deductCredit (phone_number u));
       as_right (addCredits (phone_number u) (Num n) source ref)]
      [0; 1; 1; 1; 0; 0] =
      (w', [Ret (inl (mkDeduct true (credits u - 1)));
            Ret (inr (set_credits (credits u + n) u))]) /\
    has_user w' (set_credits (credits u - 1) u) /\
    credit_transactions w' =
      credit_transactions w
      ++ [mkTx (user_id u) credit (Num n) source ref;
          debit_transaction (user_id u)].
Proof.
  intros w u n source ref Hu Hc Hsum.
  pose proof (step_deductCredit_read w u Hu) as R0.
  pose proof (step_addCredits_read w u (Num n) source ref Hu) as R1.
  destruct (step_add_write w u u n source ref Hu eq_refl) as [W1 Hu1].
  assert (Hcheck : deduct_check u = deduct_update u).
  { unfold deduct_check. destruct (Z.leb_spec (credits u) 0); [lia | reflexivity]. }
  eexists. split; [| split].
  - cbn [interleave step_nth]. rewrite step_as_left, R0, Hcheck. cbn [fst snd].
    cbn [interleave step_nth]. rewrite step_as_right, R1. cbn [fst snd].
    cbn [interleave step_nth]. rewrite step_as_right, W1. cbn [fst snd].
    cbn [interleave step_nth]. rewrite step_as_right.
    cbn [step add_log bind await world_handler fst snd as_right].
    cbn [interleave step_nth]. rewrite step_as_left.
    match goal with
    | |- context [step world_handler ?w1 (deduct_update u)] =>
        destruct (step_deduct_update w1 u (set_credits (credits u + n) u))
          as [W0 Hu2]; [exact Hu1 | reflexivity | exact Hc | exact Hsum |];
        rewrite W0
    end.
    cbn [interleave step_nth step deduct_commit bind await world_handler
         fst snd as_left set_credits user_id phone_number credits].
    reflexivity.
  - match goal with
    | |- has_user ?w2 _ =>
        destruct (step_deduct_update
                    (mkWorld
                       (map (update_row (user_id u) None (credits u + n)) (users w))
                       (credit_transactions w
                        ++ [mkTx (user_id u) credit (Num n) source ref])
                       (packages w) (payments w) (orders w) (next_user_id w))
                    u (set_credits (credits u + n) u))
          as [_ Hu2]; [exact Hu1 | reflexivity | exact Hc | exact Hsum |]
    end.
    exact Hu2.
  - cbn [credit_transactions set_users]. unfold debit_transaction.
    rewrite <- app_assoc. reflexivity.
Qed.

Lemma deductCredit_overwrites_addCredits_witness :
  exists w',
    interleave world_handler world_two
      [as_left (deductCredit "+911234567890");
       as_right (addCredits "+911234567890" (Num 50) "payment" (Some "pay_1"))]
      [0; 1; 1; 1; 0; 0] =
      (w', [Ret (inl (mkDeduct true 1));
            Ret (inr (mkUser 7 "+911234567890" 52))]) /\
    has_user w' (mkUser 7 "+911234567890" 1).
Proof.
  destruct (deductCredit_overwrites_addCredits world_two
              (mkUser 7 "+911234567890" 2) 50 "payment" (Some "pay_1"))
    as [w' [H1 [H2 _]]].
  - split; reflexivity.
  - simpl. lia.
  - simpl. lia.
  - exists w'. split; [exact H1 | exact H2].
Defined.

(** ** Credit history *)

Lemma Forall_firstn_keeps : forall (A : Type) (P : A -> Prop) k l,
  Forall P l -> Forall P (firstn k l).
Proof.
  intros A P k. induction k as [| k IH]; intros l H; cbn [firstn].
  - constructor.
  - destruct H; constructor; auto.
Qed.

Lemma history_after_log : forall w w' tx id k,
  credit_transactions w' = credit_transactions w ++ [tx] ->
  (tx_user_id tx = id ->
   getCreditHistory w' id (S k) = tx :: getCreditHistory w id k) /\
  (tx_user_id tx <> id ->
   getCreditHistory w' id k = getCreditHistory w id k).
Proof.
  intros w w' tx id k Htx. unfold getCreditHistory. rewrite Htx, filter_app.
  cbn [filter]. split.
  - intros Hid. rewrite Hid, Nat.eqb_refl, rev_app_distr. reflexivity.
  - intros Hid. destruct (Nat.eqb_spec (tx_user_id tx) id); [contradiction |].
    rewrite app_nil_r. reflexivity.
Qed.

(** X19: after [addCredits] for a user, that user's history starts with the
    new credit transaction followed by the previous history, and every other
    user's history is what it was; a history holds only the asked user's
    transactions and at most [limit] of them. *)
Theorem getCreditHistory_after_addCredits :
  forall w u n source ref,
  has_user w u ->
  (forall k,
   getCreditHistory
     (fst (run world_handler w (addCredits (phone_number u) (Num n) source ref)))
     (user_id u) (S k) =
   mkTx (user_id u) credit (Num n) source ref
   :: getCreditHistory w (user_id u) k) /\
  (forall id k, id <> user_id u ->
   getCreditHistory
     (fst (run world_handler w (addCredits (phone_number u) (Num n) source ref)))
     id k = getCreditHistory w id k) /\
  (forall id k,
   length (getCreditHistory w id k) <= k /\
   Forall (fun tx => tx_user_id tx = id) (getCreditHistory w id k)).
Proof.
  intros w u n source ref Hu.
  destruct (run_addCredits w u n source ref Hu) as [Hrun _]. rewrite Hrun.
  cbn [fst].
  split; [| split].
  - intros k.
    apply (history_after_log w _ (mkTx (user_id u) credit (Num n) source ref));
      reflexivity.
  - intros id k Hid.
    apply (history_after_log w _ (mkTx (user_id u) credit (Num n) source ref));
      [reflexivity | cbn [tx_user_id]; congruence].
  - intros id k. unfold getCreditHistory. split.
    + apply firstn_le_length.
    + apply Forall_firstn_keeps, Forall_rev, Forall_forall.
      intros tx Hin. apply filter_In in Hin. destruct Hin as [_ Hid].
      apply Nat.eqb_eq in Hid. exact Hid.
Qed.

Lemma getCreditHistory_after_addCredits_witness :
  getCreditHistory
    (fst (run world_handler world_two
            (addCredits "+911234567890" (Num 50) "payment" (Some "pay_1"))))
    7 1 = [mkTx 7 credit (Num 50) "payment" (Some "pay_1")].
Proof.
  destruct (getCreditHistory_after_addCredits world_two
              (mkUser 7 "+911234567890" 2) 50 "payment" (Some "pay_1"))
    as [H _]; [split; reflexivity |].
  exact (H 0).
Defined.

(** ** Orders and replayed verifications *)

(** X20: a successful [createOrder] does not touch the ledger: users,
    credit transactions, packages and payments are what they were, and the
    gateway holds one more order, whose amount is [Math.round] of the double
    product [price * 100] and whose notes carry the package id, the phone
    number and the package's credits printed as a string. *)
Theorem createOrder_only_places_an_order :
  forall config w now pkgId phone P amount,
  razorpay config = true ->
  pkgId <> "" -> phone <> "" ->
  filter (package_is pkgId) (packages w) = [P] ->
  Math_round_double (package_price P * 100)%float = Num amount ->
  exists w1 response,
    run world_handler w (createOrder config now (Some pkgId) (Some phone)) =
      (w1, inr (Responded response)) /\
    status_code response = 200 /\
    users w1 = users w /\
    credit_transactions w1 = credit_transactions w /\
    packages w1 = packages w /\
    payments w1 = payments w /\
    orders w1 =
      orders w
      ++ [mkOrder (next_order_id w) amount "INR"
            ("receipt_" ++ string_of_nat now ++ "_" ++ pkgId)%string
            (mkNotes pkgId phone (string_of_Z (package_credits P)))].
Proof.
  intros config w now pkgId phone P amount Hr Hk Hph HP Hamount.
  pose proof (run_createOrder config w now pkgId phone P amount Hr Hk Hph HP
                Hamount) as Hrun.
  eexists. eexists. split; [exact Hrun |].
  repeat split.
Qed.

Lemma createOrder_only_places_an_order_witness :
  exists w1 response,
    run world_handler world_1005
      (createOrder config_example 1700 (Some "pkg_1005") (Some "+911234567890")) =
      (w1, inr (Responded response)) /\
    users w1 = users world_1005 /\
    orders w1 =
      [mkOrder "order_0" 100 "INR" "receipt_1700_pkg_1005"
         (mkNotes "pkg_1005" "+911234567890" "1")].
Proof.
  destruct (createOrder_only_places_an_order config_example world_1005 1700
              "pkg_1005" "+911234567890" package_1005 100)
    as [w1 [response [H1 [_ [H2 [_ [_ [_ H3]]]]]]]];
    try reflexivity; try discriminate.
  exists w1, response. split; [exact H1 |]. split; [exact H2 | exact H3].
Defined.


